(** * PriceAnalyzer (src/dsa/price_trend.py): a shallow embedding

    The Python class [PriceAnalyzer] keeps a bounded queue of past prices
    ([collections.deque] with [maxlen]), fills it with a synthetic trend and
    thresholds a current price against the mean and the minimum of the queue.

    Python numbers are modelled as they are at run time: [int] is an unbounded
    integer ([Z]), [float] is an IEEE-754 binary64 value (Rocq's primitive
    [float], same format, round to nearest even).  Exceptions are values of
    [result]; the analyzer object is a record passed explicitly, so a call
    that raises half-way leaves the state the loop had reached. *)

From Stdlib Require Import ZArith List String Lia.
From Stdlib Require Import PrimFloat FloatOps SpecFloat FloatAxioms DecimalString.
From Stdlib Require Import Permutation.
Import ListNotations.

Set Warnings "-inexact-float".

Open Scope Z_scope.

(** ** Exceptions and the error monad *)

Inductive exn : Type :=
| ValueError
| OverflowError
| ZeroDivisionError
| StatisticsError.

Inductive result (A : Type) : Type :=
| Ok (a : A)
| Raise (e : exn).

Arguments Ok {A} a.
Arguments Raise {A} e.

Definition bind {A B : Type} (r : result A) (k : A -> result B) : result B :=
  match r with
  | Ok a => k a
  | Raise e => Raise e
  end.

Declare Scope py_scope.
Delimit Scope py_scope with py.
Notation "x <- r ;; k" := (bind r (fun x => k))
  (at level 100, r at next level, right associativity) : py_scope.
Open Scope py_scope.

Definition is_ok {A : Type} (r : result A) : bool :=
  match r with
  | Ok _ => true
  | Raise _ => false
  end.

(** ** Python numbers *)

Inductive pynum : Type :=
| PyInt (z : Z)
| PyFloat (f : float).

(** [float(z)] for an [int]: the nearest binary64 value, [OverflowError]
    when [z] is too large for a float. *)
Definition float_of_Z (z : Z) : result float :=
  match binary_normalize prec emax z 0 false with
  | S754_infinity _ => Raise OverflowError
  | sf => Ok (SF2Prim sf)
  end.

Definition to_float (x : pynum) : result float :=
  match x with
  | PyInt z => float_of_Z z
  | PyFloat f => Ok f
  end.

(** [a / b] on two [int]s: the correctly rounded quotient.  The quotient is
    computed with at least three bits beyond the 53 of the format, the last
    one a sticky bit, and then rounded once. *)
Definition Z_true_div (a b : Z) : result float :=
  if b =? 0 then Raise ZeroDivisionError
  else
    let negate := xorb (a <? 0) (b <? 0) in
    if a =? 0 then Ok (if negate then (-0)%float else 0%float)
    else
      let n := Z.abs a in
      let d := Z.abs b in
      let s := Z.max 0 (Z.log2 d - Z.log2 n + 56) in
      let q := (n * 2 ^ s) / d in
      let sticky := if (n * 2 ^ s) mod d =? 0 then 0 else 1 in
      let m := 2 * q + sticky in
      match binary_normalize prec emax (if negate then - m else m) (- (s + 1)) negate with
      | S754_infinity _ => Raise OverflowError
      | sf => Ok (SF2Prim sf)
      end.

(** [x * y], [x + y], [x - y], [x / y] with Python's coercion: two [int]s stay exact,
    anything else is converted to [float] first. *)
Definition py_mul (x y : pynum) : result pynum :=
  match x, y with
  | PyInt a, PyInt b => Ok (PyInt (a * b))
  | _, _ => a <- to_float x ;; b <- to_float y ;; Ok (PyFloat (a * b)%float)
  end.

Definition py_add (x y : pynum) : result pynum :=
  match x, y with
  | PyInt a, PyInt b => Ok (PyInt (a + b))
  | _, _ => a <- to_float x ;; b <- to_float y ;; Ok (PyFloat (a + b)%float)
  end.

Definition py_sub (x y : pynum) : result pynum :=
  match x, y with
  | PyInt a, PyInt b => Ok (PyInt (a - b))
  | _, _ => a <- to_float x ;; b <- to_float y ;; Ok (PyFloat (a - b)%float)
  end.

Definition py_truediv (x y : pynum) : result pynum :=
  match x, y with
  | PyInt a, PyInt b => q <- Z_true_div a b ;; Ok (PyFloat q)
  | _, _ =>
      a <- to_float x ;;
      b <- to_float y ;;
      if (b =? 0)%float then Raise ZeroDivisionError
      else Ok (PyFloat (a / b)%float)
  end.

Definition py_abs (x : pynum) : pynum :=
  match x with
  | PyInt z => PyInt (Z.abs z)
  | PyFloat f => PyFloat (abs f)
  end.

(** [int(f)]: truncation toward zero; [ValueError] on NaN, [OverflowError]
    on an infinity. *)
Definition int_of_float (f : float) : result Z :=
  match Prim2SF f with
  | S754_zero _ => Ok 0
  | S754_infinity _ => Raise OverflowError
  | S754_nan => Raise ValueError
  | S754_finite s m e =>
      let a := Z.shiftl (Zpos m) e in
      Ok (if s then - a else a)
  end.

Definition py_int (x : pynum) : result Z :=
  match x with
  | PyInt z => Ok z
  | PyFloat f => int_of_float f
  end.

(** Comparison of an [int] with a [float] is exact in Python (no rounding of
    the integer): the float is read as [m * 2^e]. *)
Definition Z_lt_float (z : Z) (f : float) : bool :=
  match Prim2SF f with
  | S754_nan => false
  | S754_infinity s => negb s
  | S754_zero _ => z <? 0
  | S754_finite s m e =>
      let v := if s then Zneg m else Zpos m in
      if 0 <=? e then z <? v * 2 ^ e else z * 2 ^ (- e) <? v
  end.

Definition float_lt_Z (f : float) (z : Z) : bool :=
  match Prim2SF f with
  | S754_nan => false
  | S754_infinity s => s
  | S754_zero _ => 0 <? z
  | S754_finite s m e =>
      let v := if s then Zneg m else Zpos m in
      if 0 <=? e then v * 2 ^ e <? z else v <? z * 2 ^ (- e)
  end.

Definition py_lt (x y : pynum) : bool :=
  match x, y with
  | PyInt a, PyInt b => a <? b
  | PyInt a, PyFloat g => Z_lt_float a g
  | PyFloat f, PyInt b => float_lt_Z f b
  | PyFloat f, PyFloat g => (f <? g)%float
  end.

Definition py_gt (x y : pynum) : bool := py_lt y x.

(** ** Formatting with [:.1f] *)

Definition string_of_Z (z : Z) : string :=
  NilZero.string_of_uint (N.to_uint (Z.to_N z)).

(** One decimal place, correctly rounded from the exact binary value (ties to
    even), with the sign kept on a value that rounds to zero. *)
Definition fmt_1f (f : float) : string :=
  match Prim2SF f with
  | S754_nan => "nan"
  | S754_infinity s => if s then "-inf" else "inf"
  | S754_zero s => if s then "-0.0" else "0.0"
  | S754_finite s m e =>
      let num := if 0 <=? e then Zpos m * 2 ^ e * 10 else Zpos m * 10 in
      let den := if 0 <=? e then 1 else 2 ^ (- e) in
      let q := num / den in
      let r := num mod den in
      let t := if 2 * r <? den then q
               else if den <? 2 * r then q + 1
               else if Z.even q then q else q + 1 in
      ((if s then "-" else "") ++ string_of_Z (t / 10) ++ "." ++ string_of_Z (t mod 10))%string
  end.

Definition py_format_1f (x : pynum) : result string :=
  f <- to_float x ;; Ok (fmt_1f f).

(** ** [statistics.mean], [min], [max] on a sequence of [int]s *)

Definition sum (data : list Z) : Z := fold_left Z.add data 0.

(** [statistics.mean]: the exact fraction [total / n] in lowest terms, given
    back as an [int] when its denominator is 1 and as [float(fraction)]
    otherwise. *)
Definition mean (data : list Z) : result pynum :=
  let n := Z.of_nat (List.length data) in
  if n <? 1 then Raise StatisticsError
  else
    let total := sum data in
    let g := Z.gcd total n in
    let numerator := total / g in
    let denominator := n / g in
    if denominator =? 1 then Ok (PyInt numerator)
    else q <- Z_true_div numerator denominator ;; Ok (PyFloat q).

Definition py_min (data : list Z) : result Z :=
  match data with
  | [] => Raise ValueError
  | x :: rest => Ok (fold_left Z.min rest x)
  end.

Definition py_max (data : list Z) : result Z :=
  match data with
  | [] => Raise ValueError
  | x :: rest => Ok (fold_left Z.max rest x)
  end.

(** ** [collections.deque(maxlen=n)] *)

Record deque : Type := mkDeque {
  maxlen : Z;
  items : list Z
}.

(** The largest [Py_ssize_t] of a 64-bit build. *)
Definition PY_SSIZE_T_MAX : Z := 2 ^ 63 - 1.

(** [deque(maxlen=n)]: [n] is first converted to a [Py_ssize_t]
    ([OverflowError] when it does not fit), then refused with [ValueError]
    when negative. *)
Definition deque_new (n : Z) : result deque :=
  if orb (n <? - PY_SSIZE_T_MAX - 1) (PY_SSIZE_T_MAX <? n) then Raise OverflowError
  else if n <? 0 then Raise ValueError
  else Ok (mkDeque n []).

Definition deque_clear (d : deque) : deque := mkDeque (maxlen d) [].

(** [append] on a full deque drops the oldest item; with [maxlen = 0] the
    new item is dropped at once. *)
Definition deque_append (d : deque) (x : Z) : deque :=
  if maxlen d =? 0 then d
  else if maxlen d <=? Z.of_nat (List.length (items d))
       then mkDeque (maxlen d) (tl (items d) ++ [x])
       else mkDeque (maxlen d) (items d ++ [x]).

(** ** The analyzer *)

Record PriceAnalyzer : Type := mkPriceAnalyzer {
  history_size : Z;
  price_queue : deque
}.

(** [__init__] *)
Definition init (history_size : Z) : result PriceAnalyzer :=
  q <- deque_new history_size ;;
  Ok (mkPriceAnalyzer history_size q).

(** The random source: what [random.choice] answers for the trend and what
    the call of [random.uniform] in iteration [i] answers. *)
Inductive trend : Type := stable | increasing | decreasing.

Record random : Type := mkRandom {
  choice : trend;
  uniform : Z -> float
}.

Definition range (n : Z) : list Z := map Z.of_nat (seq 0 (Z.to_nat n)).

(** The price computed by one iteration of the loop of
    [generate_simulated_history] (lines 29-44). *)
Definition loop_price (self : PriceAnalyzer) (rnd : random) (tr : trend)
    (base_price : pynum) (i : Z) : result Z :=
  match tr with
  | stable =>
      let variation := uniform rnd i in
      p <- py_mul base_price (PyFloat variation) ;;
      py_int p
  | increasing =>
      t <- py_mul (PyFloat 0.02) (PyInt (history_size self - i)) ;;
      factor <- py_sub (PyFloat 1.0) t ;;
      let noise := uniform rnd i in
      p <- py_mul base_price factor ;;
      p <- py_mul p (PyFloat noise) ;;
      py_int p
  | decreasing =>
      t <- py_mul (PyFloat 0.02) (PyInt (history_size self - i)) ;;
      factor <- py_add (PyFloat 1.0) t ;;
      let noise := uniform rnd i in
      p <- py_mul base_price factor ;;
      p <- py_mul p (PyFloat noise) ;;
      py_int p
  end.

Definition append_price (self : PriceAnalyzer) (price : Z) : PriceAnalyzer :=
  mkPriceAnalyzer (history_size self) (deque_append (price_queue self) price).

(** The [for] loop over the remaining indices: it stops at the first
    exception and leaves the queue as it is at that point. *)
Fixpoint generate_loop (self : PriceAnalyzer) (rnd : random) (tr : trend)
    (base_price : pynum) (indices : list Z) : PriceAnalyzer * result unit :=
  match indices with
  | [] => (self, Ok tt)
  | i :: rest =>
      match loop_price self rnd tr base_price i with
      | Raise e => (self, Raise e)
      | Ok price => generate_loop (append_price self price) rnd tr base_price rest
      end
  end.

(** [generate_simulated_history]: the analyzer after the call and what the
    call returned or raised. *)
Definition generate_simulated_history (self : PriceAnalyzer) (rnd : random)
    (current_price : pynum) : PriceAnalyzer * result (list Z) :=
  let self := mkPriceAnalyzer (history_size self) (deque_clear (price_queue self)) in
  let tr := choice rnd in
  let base_price := current_price in
  match generate_loop self rnd tr base_price (range (history_size self)) with
  | (self', Ok _) => (self', Ok (items (price_queue self')))
  | (self', Raise e) => (self', Raise e)
  end.

(** Line 69: [((current_price - avg_price) / avg_price) * 100]. *)
Definition diff_percent_of (current_price avg_price : pynum) : result pynum :=
  t <- py_sub current_price avg_price ;;
  q <- py_truediv t avg_price ;;
  py_mul q (PyInt 100).

(** [analyze_recommendation] *)
Definition analyze_recommendation (self : PriceAnalyzer) (current_price : pynum)
  : result (string * string) :=
  match items (price_queue self) with
  | [] => Ok ("UNKNOWN", "Not enough data")%string
  | _ :: _ =>
      avg_price <- mean (items (price_queue self)) ;;
      min_history <- py_min (items (price_queue self)) ;;
      max_history <- py_max (items (price_queue self)) ;;
      diff_percent <- diff_percent_of current_price avg_price ;;
      if py_lt current_price (PyInt min_history) then
        Ok ("🔥 BUY NOW", "Lowest price in recent history! Great deal.")%string
      else if py_lt diff_percent (PyInt (-5)) then
        s <- py_format_1f (py_abs diff_percent) ;;
        Ok ("✅ BUY", "Price is " ++ s ++ "% below average.")%string
      else if py_lt diff_percent (PyInt 0) then
        Ok ("✅ BUY", "Price is slighty below average.")%string
      else if py_gt diff_percent (PyInt 10) then
        s <- py_format_1f diff_percent ;;
        Ok ("🛑 WAIT", "Price is " ++ s ++ "% above average. Likely to drop.")%string
      else
        Ok ("⏳ WAIT", "Price is average. You might find a better deal soon.")%string
  end.

(** [get_history] *)
Definition get_history (self : PriceAnalyzer) : list Z := items (price_queue self).


(** ** Auxiliary notions used by the statements *)

(** What every analyzer built by [init] and changed only by its own methods
    satisfies: the queue's bound is [history_size] and is not negative. *)
Definition wf (self : PriceAnalyzer) : Prop :=
  maxlen (price_queue self) = history_size self /\ 0 <= history_size self.

(** An analyzer of size [n] with an empty queue. *)
Definition fresh (n : Z) : PriceAnalyzer := mkPriceAnalyzer n (mkDeque n []).

(** An analyzer of size [n] whose queue holds [h]. *)
Definition seeded (n : Z) (h : list Z) : PriceAnalyzer := mkPriceAnalyzer n (mkDeque n h).

(** The analyzer after a series of calls of [generate_simulated_history],
    each with its own random source and price, whether they returned or
    raised. *)
Definition after_calls (self : PriceAnalyzer) (calls : list (random * pynum))
  : PriceAnalyzer :=
  fold_left (fun a c => fst (generate_simulated_history a (fst c) (snd c))) calls self.

(** Running a fallible function along a list: all results, or the first
    exception ([mapM]); the results obtained before the first exception
    ([take_ok]). *)
Fixpoint mapM {A B : Type} (f : A -> result B) (l : list A) : result (list B) :=
  match l with
  | [] => Ok []
  | a :: rest =>
      match f a with
      | Raise e => Raise e
      | Ok b => match mapM f rest with
                | Raise e => Raise e
                | Ok bs => Ok (b :: bs)
                end
      end
  end.

Fixpoint take_ok {A B : Type} (f : A -> result B) (l : list A) : list B :=
  match l with
  | [] => []
  | a :: rest =>
      match f a with
      | Raise _ => []
      | Ok b => b :: take_ok f rest
      end
  end.

(** Truncation as the specification words it: the fractional part of the
    exact value [(-1)^s * m * 2^e] is discarded, that is, the quotient rounded
    toward zero ([Z.quot]). *)
Definition spec_truncate (x : pynum) : result Z :=
  match x with
  | PyInt z => Ok z
  | PyFloat f =>
      match Prim2SF f with
      | S754_zero _ => Ok 0
      | S754_infinity _ => Raise OverflowError
      | S754_nan => Raise ValueError
      | S754_finite s m e =>
          let v := if s then Zneg m else Zpos m in
          Ok (if 0 <=? e then v * 2 ^ e else Z.quot v (2 ^ (- e)))
      end
  end.

(** The entry at position [i] as the specification gives it, with
    [steps_back = history_size - i], the draw [U i] and [base = current_price]. *)
Definition spec_entry (tr : trend) (n : Z) (U : Z -> float) (base : pynum) (i : Z)
  : result Z :=
  let steps_back := n - i in
  match tr with
  | stable =>
      price <- py_mul base (PyFloat (U i)) ;;
      spec_truncate price
  | increasing =>
      d <- py_mul (PyFloat 0.02) (PyInt steps_back) ;;
      factor <- py_sub (PyFloat 1.0) d ;;
      bf <- py_mul base factor ;;
      price <- py_mul bf (PyFloat (U i)) ;;
      spec_truncate price
  | decreasing =>
      d <- py_mul (PyFloat 0.02) (PyInt steps_back) ;;
      factor <- py_add (PyFloat 1.0) d ;;
      bf <- py_mul base factor ;;
      price <- py_mul bf (PyFloat (U i)) ;;
      spec_truncate price
  end.

(** Sample inputs of the statements below. *)
Definition hundreds : list Z := repeat 100 15.

Definition steady : random := mkRandom stable (fun _ => 1.0%float).
Definition rising : random := mkRandom increasing (fun _ => 1.0%float).
Definition falling : random := mkRandom decreasing (fun i => if i <? 2 then 0.99%float else 1.01%float).

Definition jumpy : random :=
  mkRandom stable (fun i => if i <? 2 then 0.96%float else 1.04%float).

(** The labels [analyze_recommendation] can answer (lines 63-80). *)
Definition labels : list string :=
  ["UNKNOWN"; "🔥 BUY NOW"; "✅ BUY"; "🛑 WAIT"; "⏳ WAIT"]%string.

(** A float that is neither NaN nor an infinity. *)
Definition is_finite (f : float) : bool :=
  match Prim2SF f with
  | S754_zero _ | S754_finite _ _ _ => true
  | S754_infinity _ | S754_nan => false
  end.

Definition float_is_zero (f : float) : bool :=
  match Prim2SF f with
  | S754_zero _ => true
  | _ => false
  end.

Definition zero_or_nan (f : float) : bool :=
  match Prim2SF f with
  | S754_zero _ | S754_nan => true
  | _ => false
  end.

(** A price equal to zero ([0], [0.0] or [-0.0]). *)
Definition price_is_zero (x : pynum) : bool :=
  match x with
  | PyInt z => z =? 0
  | PyFloat f => float_is_zero f
  end.

(** A price that is, or converts to, a finite float. *)
Definition price_finite (x : pynum) : bool :=
  match to_float x with
  | Ok f => is_finite f
  | Raise _ => false
  end.

(** ** Basic facts on the error monad and the queue *)

Lemma mapM_length {A B : Type} (f : A -> result B) :
  forall l bs, mapM f l = Ok bs -> List.length bs = List.length l.
Proof.
  induction l as [|a l IH]; intros bs; simpl.
  - intros [= <-]. reflexivity.
  - destruct (f a) as [b|e]; [|discriminate].
    destruct (mapM f l) as [bs'|e]; [|discriminate].
    intros [= <-]. simpl. f_equal. now apply IH.
Qed.

Lemma mapM_take_ok {A B : Type} (f : A -> result B) :
  forall l bs, mapM f l = Ok bs -> take_ok f l = bs.
Proof.
  induction l as [|a l IH]; intros bs; simpl.
  - now intros [= <-].
  - destruct (f a) as [b|e]; [|discriminate].
    destruct (mapM f l) as [bs'|e]; [|discriminate].
    intros [= <-]. f_equal. now apply IH.
Qed.

Lemma mapM_raise_take_ok {A B : Type} (f : A -> result B) :
  forall l e, mapM f l = Raise e -> (List.length (take_ok f l) < List.length l)%nat.
Proof.
  induction l as [|a l IH]; intros e; simpl.
  - discriminate.
  - destruct (f a) as [b|e0]; [|simpl; lia].
    destruct (mapM f l) as [bs'|e1] eqn:E; [discriminate|].
    intros _. simpl. specialize (IH e1 eq_refl). lia.
Qed.

Lemma mapM_nth {A B : Type} (f : A -> result B) (da : A) (db : B) :
  forall l bs, mapM f l = Ok bs ->
  forall k, (k < List.length l)%nat -> f (nth k l da) = Ok (nth k bs db).
Proof.
  induction l as [|a l IH]; intros bs; simpl.
  - intros _ k Hk. lia.
  - destruct (f a) as [b|e] eqn:Fa; [|discriminate].
    destruct (mapM f l) as [bs'|e]; [|discriminate].
    intros [= <-] [|k] Hk; simpl; [assumption|].
    apply IH; [reflexivity|lia].
Qed.

Lemma mapM_ok_iff {A B : Type} (f : A -> result B) :
  forall l, is_ok (mapM f l) = true <-> (forall a, In a l -> is_ok (f a) = true).
Proof.
  induction l as [|a l IH]; simpl.
  - split; [intros _ a []|reflexivity].
  - destruct (f a) as [b|e] eqn:Fa.
    + destruct (mapM f l) as [bs|e]; simpl in *.
      * split; [|reflexivity]. intros _ x [<-|Hx]; [now rewrite Fa|].
        now apply IH.
      * split; [discriminate|]. intros H. apply IH. intros x Hx. apply H. now right.
    + simpl. split; [discriminate|]. intros H. specialize (H a (or_introl eq_refl)).
      now rewrite Fa in H.
Qed.

Lemma mapM_ext {A B : Type} (f g : A -> result B) :
  forall l, (forall a, In a l -> f a = g a) -> mapM f l = mapM g l.
Proof.
  induction l as [|a l IH]; simpl; intros H; [reflexivity|].
  rewrite (H a (or_introl eq_refl)), IH; [reflexivity|].
  intros x Hx. apply H. now right.
Qed.

Lemma range_length (n : Z) : 0 <= n -> Z.of_nat (List.length (range n)) = n.
Proof.
  intros Hn. unfold range. rewrite length_map, length_seq. lia.
Qed.

Lemma range_In (n i : Z) : In i (range n) <-> 0 <= i < n.
Proof.
  unfold range. rewrite in_map_iff. split.
  - intros (k & <- & Hk). apply in_seq in Hk. lia.
  - intros Hi. exists (Z.to_nat i). split; [lia|]. apply in_seq. lia.
Qed.

Lemma range_nth (n : Z) (k : nat) :
  (k < List.length (range n))%nat -> nth k (range n) 0 = Z.of_nat k.
Proof.
  unfold range. rewrite length_map, length_seq. intros Hk.
  change 0 with (Z.of_nat 0%nat). rewrite map_nth, seq_nth by assumption. reflexivity.
Qed.

(** The queue never exceeds its bound, and a full queue gives up its oldest
    item for the new one. *)
Lemma deque_append_bounded (d : deque) (x : Z) :
  0 <= maxlen d -> Z.of_nat (List.length (items d)) <= maxlen d ->
  maxlen (deque_append d x) = maxlen d
  /\ Z.of_nat (List.length (items (deque_append d x))) <= maxlen d.
Proof.
  intros Hpos Hlen. unfold deque_append.
  destruct (maxlen d =? 0) eqn:E0; [split; [reflexivity|assumption]|].
  apply Z.eqb_neq in E0.
  destruct (maxlen d <=? Z.of_nat (List.length (items d))) eqn:E1; cbn [maxlen items].
  - split; [reflexivity|]. rewrite length_app. cbn [List.length].
    destruct (items d) as [|y l]; cbn [tl List.length] in *; lia.
  - apply Z.leb_gt in E1. split; [reflexivity|]. rewrite length_app. cbn [List.length]. lia.
Qed.

Example deque_append_evicts_oldest :
  deque_append (mkDeque 3 [1; 2; 3]) 4 = mkDeque 3 [2; 3; 4]
  /\ deque_append (mkDeque 3 [1; 2]) 4 = mkDeque 3 [1; 2; 4]
  /\ deque_append (mkDeque 0 []) 4 = mkDeque 0 [].
Proof. repeat split. Qed.

Example int_discards_fraction :
  int_of_float 2.7 = Ok 2 /\ int_of_float (-2.7) = Ok (-2)
  /\ int_of_float 0.99 = Ok 0 /\ int_of_float 1e20 = Ok (10 ^ 20)
  /\ int_of_float nan = Raise ValueError /\ int_of_float infinity = Raise OverflowError.
Proof. repeat split; vm_compute; reflexivity. Qed.

Example true_division_rounds_once :
  Z_true_div 1 3 = Ok 0.33333333333333331%float
  /\ Z_true_div (-6) 100 = Ok (-0.06)%float
  /\ Z_true_div 0 (-5) = Ok (-0)%float
  /\ Z_true_div 1 0 = Raise ZeroDivisionError
  /\ Z_true_div (2 ^ 2000) 3 = Raise OverflowError
  /\ Z_true_div 3 (2 ^ 1075) = Ok 9.8813129168249309e-324%float.
Proof. repeat split; vm_compute; reflexivity. Qed.

Example format_one_decimal :
  fmt_1f 6 = "6.0"%string /\ fmt_1f 0.25 = "0.2"%string /\ fmt_1f 0.35 = "0.3"%string
  /\ fmt_1f 12.96 = "13.0"%string /\ fmt_1f (-0.01) = "-0.0"%string.
Proof. repeat split; vm_compute; reflexivity. Qed.

Example mean_of_ints :
  mean [100; 110; 120] = Ok (PyInt 110) /\ mean [1; 2; 4] = Ok (PyFloat 2.3333333333333335)
  /\ mean [] = Raise StatisticsError.
Proof. repeat split; vm_compute; reflexivity. Qed.

Example comparison_is_exact :
  py_lt (PyInt (2 ^ 53)) (PyFloat 9007199254740992) = false
  /\ py_lt (PyInt (2 ^ 53 - 1)) (PyFloat 9007199254740992) = true
  /\ py_lt (PyFloat 9007199254740992) (PyInt (2 ^ 53 + 1)) = true
  /\ py_lt (PyFloat nan) (PyInt 0) = false /\ py_gt (PyFloat nan) (PyInt 0) = false.
Proof. repeat split; vm_compute; reflexivity. Qed.

(** ** [int] is truncation toward zero *)

Lemma int_of_float_truncates (f : float) : int_of_float f = spec_truncate (PyFloat f).
Proof.
  unfold int_of_float, spec_truncate.
  destruct (Prim2SF f) as [s|s| |s m e]; try reflexivity.
  f_equal. destruct (0 <=? e) eqn:He.
  - apply Z.leb_le in He. rewrite Z.shiftl_mul_pow2 by assumption.
    destruct s; [|reflexivity]. now rewrite <- Z.mul_opp_l.
  - apply Z.leb_gt in He. rewrite Z.shiftl_div_pow2 by lia.
    assert (Hp : 0 < 2 ^ (- e)) by (apply Z.pow_pos_nonneg; lia).
    destruct s.
    + change (Z.neg m) with (- Z.pos m). rewrite Z.quot_opp_l by lia.
      now rewrite Z.quot_div_nonneg by lia.
    + now rewrite Z.quot_div_nonneg by lia.
Qed.

Lemma py_int_truncates (x : pynum) : py_int x = spec_truncate x.
Proof. destruct x as [z|f]; [reflexivity|apply int_of_float_truncates]. Qed.

(** ** The generation loop *)

Lemma loop_price_spec_entry (self : PriceAnalyzer) (rnd : random) (base : pynum) (i : Z) :
  loop_price self rnd (choice rnd) base i
  = spec_entry (choice rnd) (history_size self) (uniform rnd) base i.
Proof.
  unfold loop_price, spec_entry.
  destruct (choice rnd); unfold bind;
    repeat match goal with
           | |- context [match ?r with Ok _ => _ | Raise _ => _ end] =>
               lazymatch r with
               | py_int _ => fail
               | spec_truncate _ => fail
               | _ => destruct r; [|reflexivity]
               end
           end;
    apply py_int_truncates.
Qed.

Lemma loop_price_size (self other : PriceAnalyzer) rnd tr base i :
  history_size self = history_size other ->
  loop_price self rnd tr base i = loop_price other rnd tr base i.
Proof. intros H. unfold loop_price. now rewrite H. Qed.

(** While there is room for every remaining index, the loop appends the
    prices obtained before the first exception and evicts nothing. *)
Lemma generate_loop_run (rnd : random) (tr : trend) (base : pynum) (n : Z) :
  forall indices acc,
    Z.of_nat (List.length acc) + Z.of_nat (List.length indices) <= n ->
    generate_loop (seeded n acc) rnd tr base indices
    = (seeded n (acc ++ take_ok (loop_price (fresh n) rnd tr base) indices),
       match mapM (loop_price (fresh n) rnd tr base) indices with
       | Ok _ => Ok tt
       | Raise e => Raise e
       end).
Proof.
  induction indices as [|i rest IH]; intros acc Hroom; simpl.
  - now rewrite app_nil_r.
  - rewrite (loop_price_size (seeded n acc) (fresh n)) by reflexivity.
    destruct (loop_price (fresh n) rnd tr base i) as [price|e].
    + assert (Happ : append_price (seeded n acc) price = seeded n (acc ++ [price])).
      { unfold append_price, seeded, deque_append. simpl in *.
        destruct (n =? 0) eqn:E0; [apply Z.eqb_eq in E0; lia|].
        destruct (n <=? Z.of_nat (List.length acc)) eqn:E1;
          [apply Z.leb_le in E1; lia|reflexivity]. }
      rewrite Happ, IH.
      * rewrite <- app_assoc. simpl.
        destruct (mapM (loop_price (fresh n) rnd tr base) rest); reflexivity.
      * rewrite length_app. simpl in *. lia.
    + now rewrite app_nil_r.
Qed.

(** The whole call, in closed form: the new queue holds the prices computed
    before the first exception, and the call returns all of them or raises
    that exception.  Nothing of the previous queue is read. *)
Lemma generate_closed_form (self : PriceAnalyzer) (rnd : random) (cp : pynum) :
  wf self ->
  generate_simulated_history self rnd cp
  = (seeded (history_size self)
       (take_ok (loop_price (fresh (history_size self)) rnd (choice rnd) cp)
          (range (history_size self))),
     mapM (loop_price (fresh (history_size self)) rnd (choice rnd) cp)
       (range (history_size self))).
Proof.
  intros [Hmax Hpos]. unfold generate_simulated_history, deque_clear.
  cbn [history_size price_queue]. rewrite Hmax.
  change (mkPriceAnalyzer (history_size self) (mkDeque (history_size self) []))
    with (seeded (history_size self) []).
  rewrite generate_loop_run by (rewrite range_length by assumption; simpl; lia).
  simpl app.
  destruct (mapM _ (range (history_size self))) as [ps|e] eqn:E; [|reflexivity].
  now rewrite (mapM_take_ok _ _ _ E).
Qed.

Lemma init_wf (n : Z) (self : PriceAnalyzer) : init n = Ok self -> wf self /\ self = fresh n.
Proof.
  unfold init, deque_new, bind.
  destruct (orb (n <? - PY_SSIZE_T_MAX - 1) (PY_SSIZE_T_MAX <? n)); [discriminate|].
  destruct (n <? 0) eqn:E; [discriminate|].
  intros [= <-]. apply Z.ltb_ge in E. repeat split; assumption.
Qed.

Lemma generate_wf (self : PriceAnalyzer) rnd cp :
  wf self ->
  wf (fst (generate_simulated_history self rnd cp))
  /\ history_size (fst (generate_simulated_history self rnd cp)) = history_size self.
Proof.
  intros H. rewrite generate_closed_form by assumption. destruct H as [_ Hpos].
  repeat split; assumption.
Qed.

Lemma after_calls_wf (n : Z) (a : PriceAnalyzer) (calls : list (random * pynum)) :
  init n = Ok a ->
  wf (after_calls a calls) /\ history_size (after_calls a calls) = n.
Proof.
  intros Ha. apply init_wf in Ha. destruct Ha as [Hwf ->].
  unfold after_calls.
  assert (Hgen : forall cs self, wf self -> history_size self = n ->
            wf (fold_left (fun a c => fst (generate_simulated_history a (fst c) (snd c))) cs self)
            /\ history_size
                 (fold_left (fun a c => fst (generate_simulated_history a (fst c) (snd c))) cs self)
               = n).
  { induction cs as [|c cs IH]; intros self Hs Hn; simpl; [now split|].
    destruct (generate_wf self (fst c) (snd c) Hs) as [Hs' Hn'].
    apply IH; [assumption|congruence]. }
  now apply Hgen.
Qed.

(** ** Generation: capacity, entries, replacement *)

(** C3, as stated, fails: a call whose first price does not fit a float
    (an [int] above the float range, or an infinite price) raises
    [OverflowError] after the queue was cleared, and [get_history] then has
    0 entries although [history_size] is 15; with the finite price 1.75e308
    and draws 0.96, 0.96, 1.04 the third product overflows and the queue of
    size 3 is left with 2 entries. *)
Lemma capacity_fails_on_overflow :
  init 15 = Ok (fresh 15)
  /\ generate_simulated_history (fresh 15) steady (PyInt (10 ^ 400))
     = (fresh 15, Raise OverflowError)
  /\ generate_simulated_history (fresh 15) steady (PyFloat infinity)
     = (fresh 15, Raise OverflowError)
  /\ Z.of_nat (List.length (get_history (fresh 15))) <> 15
  /\ snd (generate_simulated_history (fresh 3) jumpy (PyFloat 1.75e308))
     = Raise OverflowError
  /\ List.length (get_history
         (fst (generate_simulated_history (fresh 3) jumpy (PyFloat 1.75e308)))) = 2%nat.
Proof.
  repeat split; try (vm_compute; reflexivity). vm_compute. discriminate.
Qed.

(** C3 (amended): take an analyzer constructed with [history_size = n] and
    then used for any series of calls of [generate_simulated_history].  One
    more call returns exactly when every computed price converts to an [int];
    when it returns, the returned list and [get_history] have exactly [n]
    entries; when it raises, [get_history] has fewer than [n]. *)
Theorem capacity_after_generate (n : Z) (a : PriceAnalyzer)
    (calls : list (random * pynum)) (rnd : random) (cp : pynum) :
  init n = Ok a ->
  match snd (generate_simulated_history (after_calls a calls) rnd cp) with
  | Ok h =>
      Z.of_nat (List.length h) = n
      /\ Z.of_nat (List.length (get_history
              (fst (generate_simulated_history (after_calls a calls) rnd cp)))) = n
  | Raise _ =>
      Z.of_nat (List.length (get_history
          (fst (generate_simulated_history (after_calls a calls) rnd cp)))) < n
  end
  /\ (is_ok (snd (generate_simulated_history (after_calls a calls) rnd cp)) = true
      <-> forall i, 0 <= i < n -> is_ok (loop_price a rnd (choice rnd) cp i) = true).
Proof.
  intros Ha. destruct (after_calls_wf n a calls Ha) as [Hwf Hsize].
  destruct (init_wf n a Ha) as [_ ->].
  rewrite generate_closed_form by assumption. rewrite Hsize.
  assert (Hpos : 0 <= n) by (rewrite <- Hsize; apply Hwf).
  cbn [fst snd]. unfold get_history, seeded. cbn [price_queue items]. split.
  - destruct (mapM _ (range n)) as [h|e] eqn:E.
    + rewrite (mapM_take_ok _ _ _ E), (mapM_length _ _ _ E), range_length by assumption.
      split; reflexivity.
    + apply mapM_raise_take_ok in E.
      pose proof (range_length n Hpos) as Hlen. lia.
  - rewrite mapM_ok_iff. split; intros H i Hi; apply H; now apply range_In.
Qed.

Lemma capacity_after_generate_witness :
  init 15 = Ok (fresh 15)
  /\ is_ok (snd (generate_simulated_history
                   (after_calls (fresh 15) [(rising, PyInt 250); (jumpy, PyFloat 1.75e308)])
                   falling (PyInt 1000))) = true
  /\ match snd (generate_simulated_history
                  (after_calls (fresh 15) [(rising, PyInt 250); (jumpy, PyFloat 1.75e308)])
                  falling (PyInt 1000)) with
     | Ok h =>
         Z.of_nat (List.length h) = 15
         /\ Z.of_nat (List.length (get_history
                 (fst (generate_simulated_history
                         (after_calls (fresh 15) [(rising, PyInt 250); (jumpy, PyFloat 1.75e308)])
                         falling (PyInt 1000))))) = 15
     | Raise _ =>
         Z.of_nat (List.length (get_history
             (fst (generate_simulated_history
                     (after_calls (fresh 15) [(rising, PyInt 250); (jumpy, PyFloat 1.75e308)])
                     falling (PyInt 1000))))) < 15
     end.
Proof.
  split; [reflexivity|]. split; [vm_compute; reflexivity|].
  exact (proj1 (capacity_after_generate 15 (fresh 15)
                  [(rising, PyInt 250); (jumpy, PyFloat 1.75e308)] falling (PyInt 1000) eq_refl)).
Defined.

(** C6: with the trend and the draws fixed, what the call returns (or raises)
    is the list of the specification's entries for the indices
    [0 .. history_size - 1], computed from [current_price] and [history_size]
    alone: entry [i] is the truncation of [base * U], of
    [base * (1.0 - 0.02 * steps_back) * U] or of
    [base * (1.0 + 0.02 * steps_back) * U], with [steps_back = history_size - i];
    two analyzers of the same size give the same answer whatever their queues
    held. *)
Theorem generate_entries_formula (self : PriceAnalyzer) (rnd : random) (cp : pynum) :
  wf self ->
  snd (generate_simulated_history self rnd cp)
  = mapM (spec_entry (choice rnd) (history_size self) (uniform rnd) cp)
      (range (history_size self))
  /\ (forall h, snd (generate_simulated_history self rnd cp) = Ok h ->
        Z.of_nat (List.length h) = history_size self
        /\ forall k, (k < List.length h)%nat ->
             spec_entry (choice rnd) (history_size self) (uniform rnd) cp (Z.of_nat k)
             = Ok (nth k h 0))
  /\ (forall other, wf other -> history_size other = history_size self ->
        snd (generate_simulated_history other rnd cp)
        = snd (generate_simulated_history self rnd cp)).
Proof.
  intros Hwf.
  assert (Heq : forall a, wf a ->
            snd (generate_simulated_history a rnd cp)
            = mapM (spec_entry (choice rnd) (history_size a) (uniform rnd) cp)
                (range (history_size a))).
  { intros a Ha. rewrite generate_closed_form by assumption. cbn [snd].
    apply mapM_ext. intros i _. now rewrite loop_price_spec_entry. }
  split; [now apply Heq|]. split.
  - intros h Hh. rewrite Heq in Hh by assumption.
    pose proof (mapM_length _ _ _ Hh) as Hlen.
    split; [rewrite Hlen; apply range_length; apply Hwf|].
    intros k Hk. rewrite <- (range_nth (history_size self) k) by lia.
    apply mapM_nth; [assumption|lia].
  - intros other Ho Hsize. rewrite !Heq by assumption. now rewrite Hsize.
Qed.

Lemma generate_entries_formula_witness :
  wf (seeded 15 hundreds)
  /\ snd (generate_simulated_history (seeded 15 hundreds) rising (PyInt 1000))
     = Ok [700; 720; 740; 760; 780; 800; 820; 840; 860; 880; 900; 920; 940; 960; 980]
  /\ snd (generate_simulated_history (seeded 15 hundreds) rising (PyInt 1000))
     = mapM (spec_entry (choice rising) (history_size (seeded 15 hundreds))
               (uniform rising) (PyInt 1000))
         (range (history_size (seeded 15 hundreds))).
Proof.
  assert (H : wf (seeded 15 hundreds)) by (split; [reflexivity|discriminate]).
  split; [exact H|]. split; [vm_compute; reflexivity|].
  exact (proj1 (generate_entries_formula (seeded 15 hundreds) rising (PyInt 1000) H)).
Defined.

(** C7: [get_history] gives back, oldest first, exactly the list the
    preceding call of [generate_simulated_history] returned; a call made after
    any earlier call behaves as on a never-filled analyzer of the same size
    (same new state, same result), so nothing of the earlier call is left; and
    an analyzer that was only constructed has the empty history. *)
Theorem get_history_after_generate (self : PriceAnalyzer) (rnd : random) (cp : pynum) :
  wf self ->
  (forall h, snd (generate_simulated_history self rnd cp) = Ok h ->
     get_history (fst (generate_simulated_history self rnd cp)) = h)
  /\ (forall rnd2 cp2,
        generate_simulated_history (fst (generate_simulated_history self rnd cp)) rnd2 cp2
        = generate_simulated_history (fresh (history_size self)) rnd2 cp2)
  /\ (forall n a, init n = Ok a -> get_history a = []).
Proof.
  intros Hwf. split; [|split].
  - intros h. rewrite generate_closed_form by assumption. cbn [fst snd].
    intros E. now rewrite (mapM_take_ok _ _ _ E).
  - intros rnd2 cp2. destruct (generate_wf self rnd cp Hwf) as [Hwf' Hsize].
    rewrite (generate_closed_form _ rnd2 cp2 Hwf'), Hsize.
    rewrite generate_closed_form; [reflexivity|]. split; [reflexivity|apply Hwf].
  - intros n a Ha. apply init_wf in Ha. destruct Ha as [_ ->]. reflexivity.
Qed.

Lemma get_history_after_generate_witness :
  wf (seeded 15 hundreds)
  /\ snd (generate_simulated_history (seeded 15 hundreds) falling (PyInt 1000))
     = Ok [1287; 1267; 1272; 1252; 1232; 1212; 1191; 1171; 1151; 1131; 1111; 1090;
           1070; 1050; 1030]
  /\ (forall h, snd (generate_simulated_history (seeded 15 hundreds) falling (PyInt 1000)) = Ok h ->
        get_history (fst (generate_simulated_history (seeded 15 hundreds) falling (PyInt 1000))) = h).
Proof.
  assert (H : wf (seeded 15 hundreds)) by (split; [reflexivity|discriminate]).
  split; [exact H|]. split; [vm_compute; reflexivity|].
  exact (proj1 (get_history_after_generate (seeded 15 hundreds) falling (PyInt 1000) H)).
Defined.

(** ** The mean depends on the history through the fraction [sum / length] *)

Lemma lowest_terms_unique (s1 n1 s2 n2 : Z) :
  0 < n1 -> 0 < n2 -> s1 * n2 = s2 * n1 ->
  s1 / Z.gcd s1 n1 = s2 / Z.gcd s2 n2 /\ n1 / Z.gcd s1 n1 = n2 / Z.gcd s2 n2.
Proof.
  intros H1 H2 Hcross.
  set (g1 := Z.gcd s1 n1). set (g2 := Z.gcd s2 n2).
  assert (Hg1 : 0 < g1).
  { pose proof (Z.gcd_nonneg s1 n1). destruct (Z.eq_dec g1 0) as [E|E]; [|subst g1; lia].
    apply Z.gcd_eq_0_r in E. lia. }
  assert (Hg2 : 0 < g2).
  { pose proof (Z.gcd_nonneg s2 n2). destruct (Z.eq_dec g2 0) as [E|E]; [|subst g2; lia].
    apply Z.gcd_eq_0_r in E. lia. }
  assert (Hc1 : Z.gcd (s1 / g1) (n1 / g1) = 1) by (apply Z.gcd_div_gcd; [lia|reflexivity]).
  assert (Hc2 : Z.gcd (s2 / g2) (n2 / g2) = 1) by (apply Z.gcd_div_gcd; [lia|reflexivity]).
  assert (Es1 : s1 = g1 * (s1 / g1))
    by (apply Z.div_exact; [lia|]; apply Z.mod_divide; [lia|apply Z.gcd_divide_l]).
  assert (En1 : n1 = g1 * (n1 / g1))
    by (apply Z.div_exact; [lia|]; apply Z.mod_divide; [lia|apply Z.gcd_divide_r]).
  assert (Es2 : s2 = g2 * (s2 / g2))
    by (apply Z.div_exact; [lia|]; apply Z.mod_divide; [lia|apply Z.gcd_divide_l]).
  assert (En2 : n2 = g2 * (n2 / g2))
    by (apply Z.div_exact; [lia|]; apply Z.mod_divide; [lia|apply Z.gcd_divide_r]).
  set (a1 := s1 / g1) in *. set (b1 := n1 / g1) in *.
  set (a2 := s2 / g2) in *. set (b2 := n2 / g2) in *.
  assert (Hb1 : 0 < b1) by nia.
  assert (Hb2 : 0 < b2) by nia.
  assert (Hab : a1 * b2 = a2 * b1).
  { rewrite Es1, En1, Es2, En2 in Hcross.
    apply (Z.mul_cancel_l _ _ (g1 * g2)); [nia|]. nia. }
  assert (D12 : (b1 | b2)).
  { apply Z.gauss with (m := a1); [|now rewrite Z.gcd_comm].
    exists a2. lia. }
  assert (D21 : (b2 | b1)).
  { apply Z.gauss with (m := a2); [|now rewrite Z.gcd_comm].
    exists a1. lia. }
  assert (Eb : b1 = b2) by (apply Z.divide_antisym_nonneg; [lia|lia|assumption|assumption]).
  split; [|assumption].
  rewrite <- Eb in Hab. apply (Z.mul_cancel_r _ _ b1); [lia|assumption].
Qed.

Lemma mean_by_fraction (h1 h2 : list Z) :
  h1 <> [] -> h2 <> [] ->
  sum h1 * Z.of_nat (List.length h2) = sum h2 * Z.of_nat (List.length h1) ->
  mean h1 = mean h2.
Proof.
  intros N1 N2 Hcross. unfold mean.
  assert (L1 : 0 < Z.of_nat (List.length h1)) by (destruct h1; [congruence|simpl; lia]).
  assert (L2 : 0 < Z.of_nat (List.length h2)) by (destruct h2; [congruence|simpl; lia]).
  destruct (Z.ltb_spec (Z.of_nat (List.length h1)) 1); [lia|].
  destruct (Z.ltb_spec (Z.of_nat (List.length h2)) 1); [lia|].
  destruct (lowest_terms_unique _ _ _ _ L1 L2 Hcross) as [-> ->]. reflexivity.
Qed.

Lemma mean_zero_sum (h : list Z) : h <> [] -> sum h = 0 -> mean h = Ok (PyInt 0).
Proof.
  intros N Hs. unfold mean. rewrite Hs.
  assert (L : 0 < Z.of_nat (List.length h)) by (destruct h; [congruence|simpl; lia]).
  destruct (Z.ltb_spec (Z.of_nat (List.length h)) 1); [lia|].
  rewrite Z.gcd_0_l, Z.abs_eq by lia. rewrite Z.div_same by lia.
  now rewrite Z.div_0_l by lia.
Qed.

(** ** Analysis *)

(** With a zero average line 69 divides by zero, whatever the price is. *)
Lemma diff_percent_zero_average (cp : pynum) :
  diff_percent_of cp (PyInt 0) = Raise ZeroDivisionError.
Proof. destruct cp as [z|f]; reflexivity. Qed.

Lemma zero_sum_raises (self : PriceAnalyzer) (cp : pynum) :
  get_history self <> [] -> sum (get_history self) = 0 ->
  analyze_recommendation self cp = Raise ZeroDivisionError.
Proof.
  unfold get_history, analyze_recommendation. intros N Hs.
  rewrite (mean_zero_sum _ N Hs).
  destruct (items (price_queue self)) as [|x rest]; [congruence|].
  cbn [bind py_min py_max]. now rewrite diff_percent_zero_average.
Qed.

(** C1, as stated, fails for 94 and 98: both are below the minimum 100 of
    the history, so the first branch answers and the label is not the
    "buy" tier. *)
Lemma hundreds_94_98_are_buy_now :
  analyze_recommendation (seeded 15 hundreds) (PyInt 94)
  = Ok ("🔥 BUY NOW", "Lowest price in recent history! Great deal.")%string
  /\ analyze_recommendation (seeded 15 hundreds) (PyInt 98)
     = Ok ("🔥 BUY NOW", "Lowest price in recent history! Great deal.")%string
  /\ "🔥 BUY NOW"%string <> "✅ BUY"%string.
Proof. repeat split; try (vm_compute; reflexivity). discriminate. Qed.

(** C1 (amended): with the history of fifteen entries equal to 100, 94 and 98
    get the strongest tier with the lowest-price explanation, 111 gets the
    "wait" tier with 11.0 to one decimal place, and 105 the default "wait"
    tier with the generic explanation. *)
Theorem thresholds_on_hundreds (self : PriceAnalyzer) :
  get_history self = hundreds ->
  analyze_recommendation self (PyInt 94)
  = Ok ("🔥 BUY NOW", "Lowest price in recent history! Great deal.")%string
  /\ analyze_recommendation self (PyInt 98)
     = Ok ("🔥 BUY NOW", "Lowest price in recent history! Great deal.")%string
  /\ analyze_recommendation self (PyInt 111)
     = Ok ("🛑 WAIT", "Price is 11.0% above average. Likely to drop.")%string
  /\ analyze_recommendation self (PyInt 105)
     = Ok ("⏳ WAIT", "Price is average. You might find a better deal soon.")%string.
Proof.
  unfold get_history, analyze_recommendation. intros ->.
  repeat split; vm_compute; reflexivity.
Qed.

Lemma thresholds_on_hundreds_witness :
  get_history (seeded 15 hundreds) = hundreds
  /\ analyze_recommendation (seeded 15 hundreds) (PyInt 111)
     = Ok ("🛑 WAIT", "Price is 11.0% above average. Likely to drop.")%string.
Proof.
  split; [reflexivity|].
  exact (proj1 (proj2 (proj2 (thresholds_on_hundreds (seeded 15 hundreds) eq_refl)))).
Defined.

(** The percentage branches answer once the price is not below the minimum:
    with mean 100 and minimum 94 the price 94 gets the "buy" tier with 6.0,
    and 98 the generic "slightly below" explanation. *)
Example buy_tier_with_percentage :
  analyze_recommendation (seeded 15 (94 :: 106 :: repeat 100 13)) (PyInt 94)
  = Ok ("✅ BUY", "Price is 6.0% below average.")%string
  /\ analyze_recommendation (seeded 15 (94 :: 106 :: repeat 100 13)) (PyInt 98)
     = Ok ("✅ BUY", "Price is slighty below average.")%string.
Proof. split; vm_compute; reflexivity. Qed.

(** A price equal to the minimum takes the percentage branches, here the
    default one; one unit lower takes the first branch. *)
Example equal_price_is_not_lowest :
  analyze_recommendation (seeded 3 [100; 100; 100]) (PyInt 100)
  = Ok ("⏳ WAIT", "Price is average. You might find a better deal soon.")%string
  /\ analyze_recommendation (seeded 3 [100; 100; 100]) (PyInt 99)
     = Ok ("🔥 BUY NOW", "Lowest price in recent history! Great deal.")%string.
Proof. split; vm_compute; reflexivity. Qed.

(** C2, as stated, fails on a generated history: with [history_size] 200,
    the increasing trend, the price 1000 and draws 1.0 the oldest entry,
    -3000, is the minimum and the average is -1009.99.  The price -3000
    equals the minimum and is above the average in percentage terms
    ([diff_percent] is 197.03...), and the answer is the "wait" tier with
    197.0, not the strongest buy tier. *)
Lemma price_equal_to_minimum_is_not_buy_now :
  init 200 = Ok (fresh 200)
  /\ exists h,
       generate_simulated_history (fresh 200) rising (PyInt 1000) = (seeded 200 h, Ok h)
       /\ py_min h = Ok (-3000)
       /\ mean h = Ok (PyFloat (-1009.99))
       /\ diff_percent_of (PyInt (-3000)) (PyFloat (-1009.99))
          = Ok (PyFloat 197.03264388756324)
       /\ py_gt (PyFloat 197.03264388756324) (PyInt 0) = true
       /\ py_lt (PyInt (-3000)) (PyInt (-3000)) = false
       /\ analyze_recommendation (seeded 200 h) (PyInt (-3000))
          = Ok ("🛑 WAIT", "Price is 197.0% above average. Likely to drop.")%string
       /\ "🛑 WAIT"%string <> "🔥 BUY NOW"%string.
Proof.
  split; [reflexivity|]. eexists.
  split; [vm_compute; reflexivity|].
  repeat split; try (vm_compute; reflexivity). discriminate.
Qed.

(** C2 (amended): the minimum check is strict and comes first among the
    branches.  A price below the history minimum gets the strongest buy tier
    whatever [diff_percent] is, once the average and [diff_percent] have been
    computed (an exception of theirs is raised first); a price not below the
    minimum, in particular one equal to it, never gets that tier. *)
Theorem minimum_check_precedence (self : PriceAnalyzer) (cp : pynum) (m : Z) :
  py_min (get_history self) = Ok m ->
  (py_lt cp (PyInt m) = true ->
     analyze_recommendation self cp
     = (avg <- mean (get_history self) ;;
        _ <- diff_percent_of cp avg ;;
        Ok ("🔥 BUY NOW", "Lowest price in recent history! Great deal.")%string))
  /\ (py_lt cp (PyInt m) = false ->
        forall e, analyze_recommendation self cp <> Ok ("🔥 BUY NOW"%string, e))
  /\ py_lt (PyInt m) (PyInt m) = false.
Proof.
  unfold get_history, analyze_recommendation. intros Hmin.
  destruct (items (price_queue self)) as [|x rest] eqn:Hitems; [discriminate|].
  rewrite Hmin. cbn [py_max]. split; [|split].
  - intros Hlt. unfold bind.
    destruct (mean (x :: rest)) as [avg|e]; [|reflexivity].
    destruct (diff_percent_of cp avg) as [d|e]; [|reflexivity].
    now rewrite Hlt.
  - intros Hlt e. unfold bind.
    destruct (mean (x :: rest)) as [avg|e0]; [|discriminate].
    destruct (diff_percent_of cp avg) as [d|e0]; [|discriminate].
    rewrite Hlt.
    destruct (py_lt d (PyInt (-5))).
    { destruct (py_format_1f (py_abs d)); discriminate. }
    destruct (py_lt d (PyInt 0)); [discriminate|].
    destruct (py_gt d (PyInt 10)); [|discriminate].
    destruct (py_format_1f d); discriminate.
  - apply Z.ltb_irrefl.
Qed.

Lemma minimum_check_precedence_witness :
  py_min (get_history (seeded 3 [100; 110; 120])) = Ok 100
  /\ py_lt (PyInt 99) (PyInt 100) = true
  /\ diff_percent_of (PyInt 99) (PyInt 110) = Ok (PyFloat (-10))
  /\ analyze_recommendation (seeded 3 [100; 110; 120]) (PyInt 99)
     = (avg <- mean (get_history (seeded 3 [100; 110; 120])) ;;
        _ <- diff_percent_of (PyInt 99) avg ;;
        Ok ("🔥 BUY NOW", "Lowest price in recent history! Great deal.")%string).
Proof.
  split; [reflexivity|]. split; [reflexivity|]. split; [vm_compute; reflexivity|].
  exact (proj1 (minimum_check_precedence (seeded 3 [100; 110; 120]) (PyInt 99) 100 eq_refl)
           eq_refl).
Defined.

(** C4: on an empty history [analyze_recommendation] answers the sentinel
    pair for every price; the mean, the minimum and the maximum, each of which
    raises on an empty history, are not evaluated. *)
Theorem empty_history_sentinel (self : PriceAnalyzer) (cp : pynum) :
  get_history self = [] ->
  analyze_recommendation self cp = Ok ("UNKNOWN", "Not enough data")%string
  /\ mean (get_history self) = Raise StatisticsError
  /\ py_min (get_history self) = Raise ValueError
  /\ py_max (get_history self) = Raise ValueError.
Proof.
  unfold get_history, analyze_recommendation. intros ->. repeat split.
Qed.

Lemma empty_history_sentinel_witness :
  init 15 = Ok (fresh 15)
  /\ get_history (fresh 15) = []
  /\ analyze_recommendation (fresh 15) (PyFloat nan) = Ok ("UNKNOWN", "Not enough data")%string.
Proof.
  split; [reflexivity|]. split; [reflexivity|].
  exact (proj1 (empty_history_sentinel (fresh 15) (PyFloat nan) eq_refl)).
Defined.

(** C5: the division of line 69 is not guarded.  Generating from the price 0
    fills the history with zeros, and every later analysis raises the raw
    [ZeroDivisionError]. *)
Theorem zero_average_raises :
  generate_simulated_history (fresh 15) steady (PyInt 0)
  = (seeded 15 (repeat 0 15), Ok (repeat 0 15))
  /\ forall cp, analyze_recommendation (seeded 15 (repeat 0 15)) cp = Raise ZeroDivisionError.
Proof.
  split; [vm_compute; reflexivity|].
  intros cp. apply zero_sum_raises; [discriminate|reflexivity].
Qed.

(** C10: two non-empty histories with the same mean (as a fraction) and the
    same minimum get the same outcome for the same price; the maximum plays
    no part. *)
Theorem recommendation_depends_on_mean_and_min (s1 s2 : PriceAnalyzer) (cp : pynum) :
  get_history s1 <> [] -> get_history s2 <> [] ->
  sum (get_history s1) * Z.of_nat (List.length (get_history s2))
  = sum (get_history s2) * Z.of_nat (List.length (get_history s1)) ->
  sum (get_history s1) <> 0 ->
  py_min (get_history s1) = py_min (get_history s2) ->
  analyze_recommendation s1 cp = analyze_recommendation s2 cp.
Proof.
  unfold get_history, analyze_recommendation. intros N1 N2 Hmean _ Hmin.
  rewrite (mean_by_fraction _ _ N1 N2 Hmean), Hmin.
  destruct (items (price_queue s1)) as [|x1 r1]; [congruence|].
  destruct (items (price_queue s2)) as [|x2 r2]; [congruence|].
  reflexivity.
Qed.

Lemma recommendation_depends_on_mean_and_min_witness :
  py_max (get_history (seeded 3 [100; 200; 300])) = Ok 300
  /\ py_max (get_history (seeded 4 [100; 100; 250; 350])) = Ok 350
  /\ analyze_recommendation (seeded 4 [100; 100; 250; 350]) (PyInt 230)
     = Ok ("🛑 WAIT", "Price is 15.0% above average. Likely to drop.")%string
  /\ analyze_recommendation (seeded 3 [100; 200; 300]) (PyInt 230)
     = analyze_recommendation (seeded 4 [100; 100; 250; 350]) (PyInt 230).
Proof.
  split; [reflexivity|]. split; [reflexivity|]. split; [vm_compute; reflexivity|].
  apply recommendation_depends_on_mean_and_min.
  - discriminate.
  - discriminate.
  - reflexivity.
  - discriminate.
  - reflexivity.
Defined.

(** ** Negative prices and construction *)

(** C8: with [history_size] 60 the increasing trend uses the factor
    [1.0 - 0.02 * 60 < 0] for the oldest entry: from the price 1000 the first
    stored entry is -199. *)
Theorem increasing_trend_negative_entry :
  init 60 = Ok (fresh 60)
  /\ exists h, snd (generate_simulated_history (fresh 60) rising (PyInt 1000)) = Ok h
               /\ nth 0 h 0 = -199
               /\ nth 9 h 0 = -20.
Proof.
  split; [reflexivity|].
  eexists. split; [vm_compute; reflexivity|]. split; reflexivity.
Qed.

(** The smallest size with a negative entry is 51; with 50 the oldest factor
    is [1.0 - 1.0] and the entry is 0. *)
Example increasing_trend_boundary :
  hd_error (take_ok (loop_price (fresh 51) rising increasing (PyInt 1000)) (range 51))
  = Some (-20)
  /\ hd_error (take_ok (loop_price (fresh 50) rising increasing (PyInt 1000)) (range 50))
     = Some 0.
Proof. split; vm_compute; reflexivity. Qed.

(** C9, as stated, fails for zero: the constructor accepts it. *)
Lemma init_zero_accepted : init 0 = Ok (fresh 0).
Proof. reflexivity. Qed.

Example init_at_the_bounds :
  init (-1) = Raise ValueError /\ init (- 2 ^ 63) = Raise ValueError
  /\ init (- 2 ^ 63 - 1) = Raise OverflowError
  /\ init (2 ^ 63 - 1) = Ok (fresh (2 ^ 63 - 1)) /\ init (2 ^ 63) = Raise OverflowError.
Proof. repeat split. Qed.

(** C9 (amended): construction fails for every negative [history_size],
    with the [ValueError] of the queue when the size is a [Py_ssize_t] and
    with its [OverflowError] when it is below the range; zero is accepted, as
    every size up to [2^63 - 1] is, and gives an analyzer with an empty queue
    of that bound; a size of [2^63] or more fails with [OverflowError]. *)
Theorem init_outcome_by_size (n : Z) :
  (n < - 2 ^ 63 \/ 2 ^ 63 <= n -> init n = Raise OverflowError)
  /\ (- 2 ^ 63 <= n < 0 -> init n = Raise ValueError)
  /\ (0 <= n < 2 ^ 63 -> init n = Ok (fresh n)).
Proof.
  unfold init, deque_new, bind, fresh, PY_SSIZE_T_MAX.
  destruct (Z.ltb_spec n (- (2 ^ 63 - 1) - 1)), (Z.ltb_spec (2 ^ 63 - 1) n),
    (Z.ltb_spec n 0); cbn [orb]; repeat split; intros; try reflexivity; lia.
Qed.

(** ** Which exceptions the operations raise *)

Lemma float_of_Z_raises (z : Z) (e : exn) : float_of_Z z = Raise e -> e = OverflowError.
Proof.
  unfold float_of_Z. destruct (binary_normalize prec emax z 0 false); congruence.
Qed.

Lemma to_float_raises (x : pynum) (e : exn) : to_float x = Raise e -> e = OverflowError.
Proof. destruct x; simpl; [apply float_of_Z_raises|discriminate]. Qed.

Lemma Z_true_div_raises (a b : Z) (e : exn) :
  Z_true_div a b = Raise e ->
  (e = ZeroDivisionError /\ b = 0) \/ (e = OverflowError /\ b <> 0).
Proof.
  unfold Z_true_div. destruct (Z.eqb_spec b 0) as [->|Hb].
  - intros [= <-]. now left.
  - destruct (a =? 0); [discriminate|].
    match goal with |- context [binary_normalize ?p ?x ?m ?ex ?sz] =>
      destruct (binary_normalize p x m ex sz) end; try discriminate.
    intros [= <-]. now right.
Qed.

Ltac float_op_raises :=
  let x := fresh "x" in let y := fresh "y" in let e := fresh "e" in
  intros x y e; destruct x, y; simpl; unfold bind;
  repeat match goal with
         | |- context [float_of_Z ?z] =>
             let E := fresh "E" in
             destruct (float_of_Z z) eqn:E;
             [|apply float_of_Z_raises in E; subst]
         end;
  intros; try discriminate; congruence.

(** Multiplication, addition and subtraction raise nothing but
    [OverflowError] (an [int] too large for a float). *)
Lemma py_mul_raises : forall x y e, py_mul x y = Raise e -> e = OverflowError.
Proof. float_op_raises. Qed.

Lemma py_add_raises : forall x y e, py_add x y = Raise e -> e = OverflowError.
Proof. float_op_raises. Qed.

Lemma py_sub_raises : forall x y e, py_sub x y = Raise e -> e = OverflowError.
Proof. float_op_raises. Qed.

Lemma py_truediv_outcome (x y : pynum) :
  match py_truediv x y with
  | Ok (PyFloat _) => True
  | Ok (PyInt _) => False
  | Raise e => e = ZeroDivisionError \/ e = OverflowError
  end.
Proof.
  destruct x as [a|f], y as [b|g]; simpl; unfold bind.
  - destruct (Z_true_div a b) eqn:E; [exact I|].
    apply Z_true_div_raises in E. tauto.
  - destruct (float_of_Z a) eqn:E; [|apply float_of_Z_raises in E; subst; now right].
    destruct (g =? 0)%float; [now left|exact I].
  - destruct (float_of_Z b) eqn:E; [|apply float_of_Z_raises in E; subst; now right].
    match goal with |- context [(?u =? 0)%float] => destruct (u =? 0)%float end;
      [now left|exact I].
  - destruct (g =? 0)%float; [now left|exact I].
Qed.

Lemma py_int_raises (x : pynum) (e : exn) :
  py_int x = Raise e -> e = OverflowError \/ e = ValueError.
Proof.
  destruct x as [z|f]; simpl; [discriminate|]. unfold int_of_float.
  destruct (Prim2SF f); intros [= <-]; tauto.
Qed.

(** Line 69 gives a [float] or raises [ZeroDivisionError] or
    [OverflowError]. *)
Lemma diff_percent_outcome (cp avg : pynum) :
  match diff_percent_of cp avg with
  | Ok (PyFloat _) => True
  | Ok (PyInt _) => False
  | Raise e => e = ZeroDivisionError \/ e = OverflowError
  end.
Proof.
  unfold diff_percent_of, bind.
  destruct (py_sub cp avg) as [t|e] eqn:E;
    [|right; now apply (py_sub_raises cp avg e)].
  pose proof (py_truediv_outcome t avg) as H.
  destruct (py_truediv t avg) as [[z|q]|e]; [contradiction| |assumption].
  exact I.
Qed.

Lemma mean_raises (h : list Z) (e : exn) :
  h <> [] -> mean h = Raise e -> e = OverflowError.
Proof.
  intros N. unfold mean, bind.
  assert (L : 0 < Z.of_nat (List.length h)) by (destruct h; [congruence|simpl; lia]).
  destruct (Z.ltb_spec (Z.of_nat (List.length h)) 1); [lia|].
  match goal with |- context [?d =? 1] => destruct (d =? 1) eqn:D end; [discriminate|].
  match goal with |- context [Z_true_div ?a ?b] =>
    destruct (Z_true_div a b) eqn:E; [discriminate|] end.
  intros [= <-]. apply Z_true_div_raises in E. destruct E as [[_ Hz]|[He _]]; [|assumption].
  exfalso. apply Z.eqb_neq in D.
  assert (Hg : 0 < Z.gcd (sum h) (Z.of_nat (List.length h))).
  { pose proof (Z.gcd_nonneg (sum h) (Z.of_nat (List.length h))).
    destruct (Z.eq_dec (Z.gcd (sum h) (Z.of_nat (List.length h))) 0) as [G|G]; [|lia].
    apply Z.gcd_eq_0_r in G. lia. }
  pose proof (Z.gcd_divide_r (sum h) (Z.of_nat (List.length h))) as [k Hk].
  rewrite Hk in Hz at 1. rewrite Z.div_mul in Hz by lia. subst k. lia.
Qed.

(** ** What [analyze_recommendation] answers and raises *)

Lemma analyze_label_cases (self : PriceAnalyzer) (cp : pynum) (l e : string) :
  analyze_recommendation self cp = Ok (l, e) ->
  In l labels /\ (l = "UNKNOWN"%string <-> get_history self = []).
Proof.
  unfold get_history, analyze_recommendation, labels.
  destruct (items (price_queue self)) as [|x rest].
  - intros [= <- <-]. split; [now left|]. split; reflexivity.
  - unfold bind.
    destruct (mean (x :: rest)) as [avg|e0]; [|discriminate].
    cbn [py_min py_max].
    destruct (diff_percent_of cp avg) as [d|e0]; [|discriminate].
    destruct (py_lt cp _).
    { intros [= <- <-]. split; [simpl; tauto|]. split; discriminate. }
    destruct (py_lt d (PyInt (-5))).
    { destruct (py_format_1f (py_abs d)); [|discriminate].
      intros [= <- <-]. split; [simpl; tauto|]. split; discriminate. }
    destruct (py_lt d (PyInt 0)).
    { intros [= <- <-]. split; [simpl; tauto|]. split; discriminate. }
    destruct (py_gt d (PyInt 10)).
    { destruct (py_format_1f d); [|discriminate].
      intros [= <- <-]. split; [simpl; tauto|]. split; discriminate. }
    intros [= <- <-]. split; [simpl; tauto|]. split; discriminate.
Qed.

(** X1: every label answered is one of the five of the source, and it is
    "UNKNOWN" exactly when the history is empty. *)
Theorem label_is_one_of_five (self : PriceAnalyzer) (cp : pynum) (l e : string) :
  analyze_recommendation self cp = Ok (l, e) ->
  In l labels /\ (l = "UNKNOWN"%string <-> get_history self = []).
Proof. apply analyze_label_cases. Qed.

Lemma label_is_one_of_five_witness :
  analyze_recommendation (seeded 3 [100; 110; 120]) (PyInt 102)
  = Ok ("✅ BUY", "Price is 7.3% below average.")%string
  /\ In "✅ BUY"%string labels.
Proof.
  assert (H : analyze_recommendation (seeded 3 [100; 110; 120]) (PyInt 102)
              = Ok ("✅ BUY", "Price is 7.3% below average.")%string)
    by (vm_compute; reflexivity).
  split; [exact H|].
  exact (proj1 (label_is_one_of_five (seeded 3 [100; 110; 120]) (PyInt 102) _ _ H)).
Defined.

(** X2: [analyze_recommendation] raises nothing but [ZeroDivisionError] and
    [OverflowError], both from the average or from line 69, and never on an
    empty history; formatting the percentage never fails. *)
Theorem analyze_raises_only (self : PriceAnalyzer) (cp : pynum) (e : exn) :
  analyze_recommendation self cp = Raise e ->
  (e = ZeroDivisionError \/ e = OverflowError)
  /\ get_history self <> []
  /\ (mean (get_history self) = Raise e
      \/ exists avg, mean (get_history self) = Ok avg /\ diff_percent_of cp avg = Raise e).
Proof.
  unfold get_history, analyze_recommendation.
  destruct (items (price_queue self)) as [|x rest]; [discriminate|].
  unfold bind.
  destruct (mean (x :: rest)) as [avg|e0] eqn:M.
  - cbn [py_min py_max].
    pose proof (diff_percent_outcome cp avg) as D.
    destruct (diff_percent_of cp avg) as [[z|d]|e0] eqn:DP; [contradiction| |].
    + destruct (py_lt cp _); [discriminate|].
      destruct (py_lt (PyFloat d) (PyInt (-5))); [discriminate|].
      destruct (py_lt (PyFloat d) (PyInt 0)); [discriminate|].
      destruct (py_gt (PyFloat d) (PyInt 10)); discriminate.
    + intros [= <-]. split; [assumption|]. split; [discriminate|].
      right. exists avg. now split.
  - intros [= <-]. split; [|split; [discriminate|now left]].
    right. apply (mean_raises (x :: rest)); [discriminate|assumption].
Qed.

Lemma analyze_raises_only_witness :
  analyze_recommendation (seeded 2 [10 ^ 400; 10 ^ 400 + 1]) (PyInt 5) = Raise OverflowError
  /\ (OverflowError = ZeroDivisionError \/ OverflowError = OverflowError).
Proof.
  assert (H : analyze_recommendation (seeded 2 [10 ^ 400; 10 ^ 400 + 1]) (PyInt 5)
              = Raise OverflowError) by (vm_compute; reflexivity).
  split; [exact H|].
  exact (proj1 (analyze_raises_only (seeded 2 [10 ^ 400; 10 ^ 400 + 1]) (PyInt 5) _ H)).
Defined.

(** ** The minimum of the history *)

Lemma fold_min_spec : forall rest x,
  In (fold_left Z.min rest x) (x :: rest)
  /\ forall y, In y (x :: rest) -> fold_left Z.min rest x <= y.
Proof.
  induction rest as [|a rest IH]; intros x; simpl.
  - split; [now left|]. intros y [<-|[]]. lia.
  - destruct (IH (Z.min x a)) as [Hin Hle]. split.
    + destruct Hin as [Hm|Hm]; [|now right; right].
      rewrite <- Hm. destruct (Z.min_spec x a) as [[_ ->]|[_ ->]]; [now left|now right; left].
    + intros y Hy.
      assert (Hm : fold_left Z.min rest (Z.min x a) <= Z.min x a) by (apply Hle; now left).
      destruct Hy as [<-|[<-|Hy]]; [lia|lia|]. apply Hle. now right.
Qed.

Lemma fold_min_unique (l : list Z) (m1 m2 : Z) :
  In m1 l -> (forall y, In y l -> m1 <= y) ->
  In m2 l -> (forall y, In y l -> m2 <= y) -> m1 = m2.
Proof.
  intros I1 L1 I2 L2. specialize (L1 m2 I2). specialize (L2 m1 I1). lia.
Qed.

(** Being below an [int] is kept when the [int] grows, for an [int] and for a
    [float] on the left (the comparison is exact). *)
Lemma py_lt_mono (cp : pynum) (a b : Z) :
  a <= b -> py_lt cp (PyInt a) = true -> py_lt cp (PyInt b) = true.
Proof.
  intros Hab. destruct cp as [z|f]; simpl.
  - rewrite !Z.ltb_lt. lia.
  - unfold float_lt_Z. destruct (Prim2SF f) as [s|s| |s m e]; try tauto.
    + rewrite !Z.ltb_lt. lia.
    + cbv zeta. set (v := if s then Z.neg m else Z.pos m).
      destruct (Z.leb_spec 0 e); rewrite !Z.ltb_lt; intros Hlt; [lia|].
      assert (0 < 2 ^ (- e)) by (apply Z.pow_pos_nonneg; lia). nia.
Qed.

Lemma py_lt_min_iff (cp : pynum) (x : Z) (rest : list Z) :
  py_lt cp (PyInt (fold_left Z.min rest x)) = true
  <-> forall y, In y (x :: rest) -> py_lt cp (PyInt y) = true.
Proof.
  destruct (fold_min_spec rest x) as [Hin Hle]. split.
  - intros H y Hy. apply (py_lt_mono cp _ y (Hle y Hy) H).
  - intros H. now apply H.
Qed.

(** X3: when an answer is given for a non-empty history, the label is the
    strongest buy tier exactly when the price is below every entry of the
    history. *)
Theorem buy_now_iff_below_every_entry (self : PriceAnalyzer) (cp : pynum) (l e : string) :
  analyze_recommendation self cp = Ok (l, e) ->
  get_history self <> [] ->
  (l = "🔥 BUY NOW"%string
   <-> forall y, In y (get_history self) -> py_lt cp (PyInt y) = true).
Proof.
  unfold get_history, analyze_recommendation.
  destruct (items (price_queue self)) as [|x rest]; [congruence|].
  intros H _. rewrite <- py_lt_min_iff. revert H. unfold bind.
  destruct (mean (x :: rest)) as [avg|e0]; [|discriminate].
  cbn [py_min py_max].
  destruct (diff_percent_of cp avg) as [d|e0]; [|discriminate].
  destruct (py_lt cp (PyInt (fold_left Z.min rest x))).
  { intros [= <- <-]. split; reflexivity. }
  destruct (py_lt d (PyInt (-5))).
  { destruct (py_format_1f (py_abs d)); [|discriminate].
    intros [= <- <-]. split; discriminate. }
  destruct (py_lt d (PyInt 0)).
  { intros [= <- <-]. split; discriminate. }
  destruct (py_gt d (PyInt 10)).
  { destruct (py_format_1f d); [|discriminate].
    intros [= <- <-]. split; discriminate. }
  intros [= <- <-]. split; discriminate.
Qed.

Lemma buy_now_iff_below_every_entry_witness :
  analyze_recommendation (seeded 3 [120; 100; 110]) (PyFloat 99.5)
  = Ok ("🔥 BUY NOW", "Lowest price in recent history! Great deal.")%string
  /\ forall y, In y (get_history (seeded 3 [120; 100; 110])) ->
       py_lt (PyFloat 99.5) (PyInt y) = true.
Proof.
  assert (H : analyze_recommendation (seeded 3 [120; 100; 110]) (PyFloat 99.5)
              = Ok ("🔥 BUY NOW", "Lowest price in recent history! Great deal.")%string)
    by (vm_compute; reflexivity).
  split; [exact H|].
  apply (proj1 (buy_now_iff_below_every_entry (seeded 3 [120; 100; 110]) (PyFloat 99.5) _ _ H
                  ltac:(discriminate))).
  reflexivity.
Defined.

(** ** The order of the history plays no part *)

Lemma fold_add_shift : forall l a, fold_left Z.add l a = a + fold_left Z.add l 0.
Proof.
  induction l as [|x l IH]; intros a; simpl; [lia|].
  rewrite (IH (a + x)), (IH x). lia.
Qed.

Lemma sum_cons (x : Z) (l : list Z) : sum (x :: l) = x + sum l.
Proof. unfold sum. simpl. apply fold_add_shift. Qed.

Lemma sum_permutation (h1 h2 : list Z) : Permutation h1 h2 -> sum h1 = sum h2.
Proof.
  induction 1 as [|x l l' _ IH|x y l|l l' l'' _ IH1 _ IH2].
  - reflexivity.
  - rewrite !sum_cons. lia.
  - rewrite !sum_cons. lia.
  - congruence.
Qed.

Lemma py_min_permutation (h1 h2 : list Z) : Permutation h1 h2 -> py_min h1 = py_min h2.
Proof.
  intros P. destruct h1 as [|x1 r1], h2 as [|x2 r2].
  - reflexivity.
  - apply Permutation_nil in P. discriminate.
  - apply Permutation_sym, Permutation_nil in P. discriminate.
  - simpl. f_equal.
    destruct (fold_min_spec r1 x1) as [I1 L1]. destruct (fold_min_spec r2 x2) as [I2 L2].
    apply (fold_min_unique (x2 :: r2)); try assumption.
    + apply (Permutation_in _ P I1).
    + intros y Hy. apply L1. apply (Permutation_in _ (Permutation_sym P) Hy).
Qed.

(** X4: two histories with the same entries in a different order get the
    same outcome for every price: no entry weighs more for being recent. *)
Theorem recommendation_ignores_order (s1 s2 : PriceAnalyzer) (cp : pynum) :
  Permutation (get_history s1) (get_history s2) ->
  analyze_recommendation s1 cp = analyze_recommendation s2 cp.
Proof.
  unfold get_history, analyze_recommendation. intros P.
  pose proof (py_min_permutation _ _ P) as Hmin.
  pose proof (sum_permutation _ _ P) as Hsum.
  pose proof (Permutation_length P) as Hlen.
  destruct (items (price_queue s1)) as [|x1 r1], (items (price_queue s2)) as [|x2 r2];
    try discriminate; [reflexivity|].
  rewrite (mean_by_fraction (x1 :: r1) (x2 :: r2)), Hmin;
    [reflexivity|discriminate|discriminate|].
  now rewrite Hsum, Hlen.
Qed.

Lemma recommendation_ignores_order_witness :
  analyze_recommendation (seeded 3 [100; 110; 120]) (PyInt 102)
  = Ok ("✅ BUY", "Price is 7.3% below average.")%string
  /\ analyze_recommendation (seeded 3 [120; 100; 110]) (PyInt 102)
     = analyze_recommendation (seeded 3 [100; 110; 120]) (PyInt 102).
Proof.
  split; [vm_compute; reflexivity|].
  apply recommendation_ignores_order. unfold get_history, seeded. cbn [price_queue items].
  apply Permutation_sym.
  apply (perm_trans (perm_skip 100 (perm_swap 120 110 []))).
  apply (perm_swap 120 100 [110]).
Defined.

(** ** Prices that are zero, too large, infinite or NaN *)

Lemma mul_nonfinite (x y : float) : is_finite x = false -> is_finite (x * y) = false.
Proof.
  unfold is_finite. rewrite mul_spec. unfold SF64mul.
  destruct (Prim2SF x), (Prim2SF y); intros H; try discriminate H; reflexivity.
Qed.

Lemma mul_zero_or_nan (x y : float) : zero_or_nan x = true -> zero_or_nan (x * y) = true.
Proof.
  unfold zero_or_nan. rewrite mul_spec. unfold SF64mul.
  destruct (Prim2SF x), (Prim2SF y); intros H; try discriminate H; reflexivity.
Qed.

Lemma mul_zero_finite (x y : float) :
  float_is_zero x = true -> is_finite y = true -> float_is_zero (x * y) = true.
Proof.
  unfold float_is_zero, is_finite. rewrite mul_spec. unfold SF64mul.
  destruct (Prim2SF x), (Prim2SF y); intros H1 H2;
    try discriminate H1; try discriminate H2; reflexivity.
Qed.

Lemma int_of_nonfinite (x : float) :
  is_finite x = false ->
  exists e, int_of_float x = Raise e /\ (e = OverflowError \/ e = ValueError).
Proof.
  unfold is_finite, int_of_float. destruct (Prim2SF x); intros H; try discriminate H.
  - exists OverflowError. tauto.
  - exists ValueError. tauto.
Qed.

Lemma int_of_zero_or_nan (x : float) (z : Z) :
  zero_or_nan x = true -> int_of_float x = Ok z -> z = 0.
Proof.
  unfold zero_or_nan, int_of_float. destruct (Prim2SF x); intros H; try discriminate H.
  - now intros [= <-].
  - discriminate.
Qed.

Lemma int_of_zero (x : float) : float_is_zero x = true -> int_of_float x = Ok 0.
Proof.
  unfold float_is_zero, int_of_float. destruct (Prim2SF x); intros H; try discriminate H.
  reflexivity.
Qed.

Lemma float_is_zero_or_nan (x : float) : float_is_zero x = true -> zero_or_nan x = true.
Proof. unfold float_is_zero, zero_or_nan. now destruct (Prim2SF x). Qed.

Lemma to_float_zero (b : pynum) :
  price_is_zero b = true -> exists f, to_float b = Ok f /\ float_is_zero f = true.
Proof.
  destruct b as [z|f]; simpl.
  - intros H. apply Z.eqb_eq in H. subst. exists 0%float. split; reflexivity.
  - intros H. now exists f.
Qed.

(** One iteration of the loop once the base price is known as a float: the
    other operand of each product is a float, so the base price is converted
    and every operation is a float operation. *)
Lemma loop_price_float (self : PriceAnalyzer) (rnd : random) (tr : trend)
    (base : pynum) (i : Z) (b : float) :
  to_float base = Ok b ->
  loop_price self rnd tr base i
  = match tr with
    | stable => int_of_float (b * uniform rnd i)
    | increasing =>
        k <- float_of_Z (history_size self - i) ;;
        int_of_float (b * (1.0 - 0.02 * k) * uniform rnd i)
    | decreasing =>
        k <- float_of_Z (history_size self - i) ;;
        int_of_float (b * (1.0 + 0.02 * k) * uniform rnd i)
    end.
Proof.
  intros Hb. unfold loop_price.
  destruct tr, base as [z|f]; simpl in *; unfold bind;
    try (injection Hb as ->);
    repeat match goal with
           | |- context [float_of_Z ?z] =>
               first [rewrite Hb | destruct (float_of_Z z)]
           end;
    reflexivity.
Qed.

Lemma loop_price_unconvertible (self : PriceAnalyzer) (rnd : random) (tr : trend)
    (base : pynum) (i : Z) :
  price_finite base = false ->
  exists e, loop_price self rnd tr base i = Raise e
            /\ (e = OverflowError \/ e = ValueError).
Proof.
  unfold price_finite. destruct (to_float base) as [b|e0] eqn:T.
  - intros Hb. rewrite (loop_price_float _ _ _ _ _ b T). destruct tr.
    + apply int_of_nonfinite. now apply mul_nonfinite.
    + unfold bind. destruct (float_of_Z (history_size self - i)) as [k|e] eqn:K.
      * apply int_of_nonfinite. now apply mul_nonfinite, mul_nonfinite.
      * apply float_of_Z_raises in K. subst. exists OverflowError. tauto.
    + unfold bind. destruct (float_of_Z (history_size self - i)) as [k|e] eqn:K.
      * apply int_of_nonfinite. now apply mul_nonfinite, mul_nonfinite.
      * apply float_of_Z_raises in K. subst. exists OverflowError. tauto.
  - intros _. pose proof (to_float_raises _ _ T) as ->.
    destruct base as [z|f]; [|discriminate]. simpl in T.
    exists OverflowError. split; [|tauto].
    unfold loop_price. destruct tr; simpl; unfold bind; rewrite ?T;
      try destruct (float_of_Z (history_size self - i)) as [k|e] eqn:K;
      rewrite ?T; try reflexivity;
      apply float_of_Z_raises in K; now subst.
Qed.

Lemma loop_price_zero (self : PriceAnalyzer) (rnd : random) (tr : trend)
    (base : pynum) (i z : Z) :
  price_is_zero base = true -> loop_price self rnd tr base i = Ok z -> z = 0.
Proof.
  intros Hz. destruct (to_float_zero base Hz) as (b & Hb & Hb0).
  apply float_is_zero_or_nan in Hb0. rewrite (loop_price_float _ _ _ _ _ b Hb).
  destruct tr; unfold bind.
  - apply int_of_zero_or_nan. now apply mul_zero_or_nan.
  - destruct (float_of_Z (history_size self - i)); [|discriminate].
    apply int_of_zero_or_nan. now apply mul_zero_or_nan, mul_zero_or_nan.
  - destruct (float_of_Z (history_size self - i)); [|discriminate].
    apply int_of_zero_or_nan. now apply mul_zero_or_nan, mul_zero_or_nan.
Qed.

Lemma range_pos (n : Z) : 1 <= n -> exists rest, range n = 0 :: rest.
Proof.
  intros Hn. unfold range. destruct (Z.to_nat n) as [|k] eqn:E; [lia|].
  simpl. now eexists.
Qed.

Lemma mapM_all_zero {A : Type} (f : A -> result Z) :
  forall l bs, mapM f l = Ok bs ->
  (forall a z, In a l -> f a = Ok z -> z = 0) ->
  bs = repeat 0 (List.length l).
Proof.
  induction l as [|a l IH]; intros bs; simpl.
  - now intros [= <-].
  - destruct (f a) as [b|e] eqn:Fa; [|discriminate].
    destruct (mapM f l) as [bs'|e]; [|discriminate].
    intros [= <-] H. rewrite (H a b (or_introl eq_refl) Fa). f_equal.
    apply IH; [reflexivity|]. intros x z Hx. apply H. now right.
Qed.

Lemma sum_repeat_zero (k : nat) : sum (repeat 0 k) = 0.
Proof. induction k as [|k IH]; [reflexivity|]. simpl repeat. now rewrite sum_cons, IH. Qed.

Lemma loop_price_raises (self : PriceAnalyzer) (rnd : random) (tr : trend)
    (base : pynum) (i : Z) (e : exn) :
  loop_price self rnd tr base i = Raise e -> e = OverflowError \/ e = ValueError.
Proof.
  unfold loop_price, bind. destruct tr;
    repeat match goal with
           | |- context [match ?r with Ok _ => _ | Raise _ => _ end] =>
               lazymatch r with
               | py_int _ => fail
               | _ =>
                   let E := fresh "E" in
                   destruct r eqn:E;
                   [|first [apply py_mul_raises in E | apply py_sub_raises in E
                            | apply py_add_raises in E];
                     subst; intros [= <-]; now left]
               end
           end;
    apply py_int_raises.
Qed.

Lemma take_ok_nth {A B : Type} (f : A -> result B) (da : A) (db : B) :
  forall l j, (j < List.length (take_ok f l))%nat ->
  f (nth j l da) = Ok (nth j (take_ok f l) db).
Proof.
  induction l as [|a l IH]; intros j; simpl; [lia|].
  destruct (f a) as [b|e] eqn:Fa; simpl; [|lia].
  destruct j as [|j]; [now intros _|]. intros Hj. apply IH. lia.
Qed.

Lemma mapM_raise_at {A B : Type} (f : A -> result B) (da : A) :
  forall l e, mapM f l = Raise e -> f (nth (List.length (take_ok f l)) l da) = Raise e.
Proof.
  induction l as [|a l IH]; intros e; simpl; [discriminate|].
  destruct (f a) as [b|e0] eqn:Fa; simpl; [|now intros [= <-]].
  destruct (mapM f l) as [bs|e1] eqn:E; [discriminate|].
  intros [= <-]. now apply IH.
Qed.

(** ** Generation: failures and degenerate inputs *)

(** X5: when [generate_simulated_history] raises, the exception is
    [OverflowError] or [ValueError], it is the one of the price of the first
    index [k] whose price does not convert, and the history is left with
    exactly the [k] entries of the indices before it. *)
Theorem generate_failure_keeps_prefix (self : PriceAnalyzer) (rnd : random)
    (cp : pynum) (e : exn) :
  wf self ->
  snd (generate_simulated_history self rnd cp) = Raise e ->
  let h := get_history (fst (generate_simulated_history self rnd cp)) in
  (e = OverflowError \/ e = ValueError)
  /\ Z.of_nat (List.length h) < history_size self
  /\ spec_entry (choice rnd) (history_size self) (uniform rnd) cp (Z.of_nat (List.length h))
     = Raise e
  /\ forall j, (j < List.length h)%nat ->
       spec_entry (choice rnd) (history_size self) (uniform rnd) cp (Z.of_nat j)
       = Ok (nth j h 0).
Proof.
  intros Hwf. rewrite generate_closed_form by assumption. cbn [fst snd].
  unfold get_history, seeded. cbn [price_queue items]. intros E.
  set (f := loop_price (fresh (history_size self)) rnd (choice rnd) cp) in *.
  assert (Hf : forall i, f i = spec_entry (choice rnd) (history_size self) (uniform rnd) cp i)
    by (intros i; unfold f; now rewrite loop_price_spec_entry).
  pose proof (mapM_raise_take_ok f _ _ E) as Hshort.
  pose proof (mapM_raise_at f 0 _ _ E) as Hat.
  rewrite range_nth in Hat by assumption.
  pose proof (range_length (history_size self) (proj2 Hwf)) as Hlen.
  split; [|split; [lia|split]].
  - apply (loop_price_raises _ _ _ _ _ _ Hat).
  - now rewrite <- Hf.
  - intros j Hj. rewrite <- Hf, <- (range_nth (history_size self) j) by lia.
    now apply take_ok_nth.
Qed.

Lemma generate_failure_keeps_prefix_witness :
  wf (fresh 3)
  /\ snd (generate_simulated_history (fresh 3) jumpy (PyFloat 1.75e308)) = Raise OverflowError
  /\ List.length (get_history
        (fst (generate_simulated_history (fresh 3) jumpy (PyFloat 1.75e308)))) = 2%nat
  /\ spec_entry (choice jumpy) (history_size (fresh 3)) (uniform jumpy) (PyFloat 1.75e308)
       (Z.of_nat (List.length (get_history
          (fst (generate_simulated_history (fresh 3) jumpy (PyFloat 1.75e308))))))
     = Raise OverflowError.
Proof.
  assert (Hwf : wf (fresh 3)) by (split; [reflexivity|discriminate]).
  assert (H : snd (generate_simulated_history (fresh 3) jumpy (PyFloat 1.75e308))
              = Raise OverflowError) by (vm_compute; reflexivity).
  split; [exact Hwf|]. split; [exact H|]. split; [vm_compute; reflexivity|].
  exact (proj1 (proj2 (proj2
           (generate_failure_keeps_prefix (fresh 3) jumpy (PyFloat 1.75e308) _ Hwf H)))).
Defined.

(** X6: an analyzer constructed with [history_size = 0] never gets a
    history: every call of [generate_simulated_history] returns the empty
    list, whatever the price (even NaN), and analysis keeps answering the
    sentinel pair. *)
Theorem size_zero_never_fills (a : PriceAnalyzer) (calls : list (random * pynum))
    (rnd : random) (cp cp' : pynum) :
  init 0 = Ok a ->
  generate_simulated_history (after_calls a calls) rnd cp = (fresh 0, Ok [])
  /\ analyze_recommendation (fst (generate_simulated_history (after_calls a calls) rnd cp)) cp'
     = Ok ("UNKNOWN", "Not enough data")%string.
Proof.
  intros Ha. destruct (after_calls_wf 0 a calls Ha) as [Hwf Hsize].
  rewrite generate_closed_form by assumption. rewrite Hsize. split; reflexivity.
Qed.

Lemma size_zero_never_fills_witness :
  generate_simulated_history (after_calls (fresh 0) [(rising, PyInt 250)]) steady (PyFloat nan)
  = (fresh 0, Ok []).
Proof.
  exact (proj1 (size_zero_never_fills (fresh 0) [(rising, PyInt 250)] steady
                  (PyFloat nan) (PyInt 1) eq_refl)).
Defined.

(** X7: from a price equal to zero, whatever the trend and the draws, a call
    that returns has stored only zeros, and for a size of at least 1 every
    later analysis raises [ZeroDivisionError]; with the stable trend and
    finite draws the call does return. *)
Theorem zero_price_gives_zero_history (self : PriceAnalyzer) (rnd : random) (cp0 : pynum) :
  wf self ->
  price_is_zero cp0 = true ->
  (forall h, snd (generate_simulated_history self rnd cp0) = Ok h ->
     h = repeat 0 (Z.to_nat (history_size self))
     /\ (1 <= history_size self ->
         forall cp, analyze_recommendation
                      (fst (generate_simulated_history self rnd cp0)) cp
                    = Raise ZeroDivisionError))
  /\ (choice rnd = stable ->
      (forall i, 0 <= i < history_size self -> is_finite (uniform rnd i) = true) ->
      is_ok (snd (generate_simulated_history self rnd cp0)) = true).
Proof.
  intros Hwf Hz. rewrite generate_closed_form by assumption. cbn [fst snd]. split.
  - intros h E.
    assert (Hh : h = repeat 0 (Z.to_nat (history_size self))).
    { rewrite (mapM_all_zero _ _ _ E).
      - f_equal. unfold range. now rewrite length_map, length_seq.
      - intros i z _. now apply loop_price_zero. }
    split; [assumption|]. intros Hn cp.
    rewrite (mapM_take_ok _ _ _ E), Hh.
    apply zero_sum_raises; unfold get_history, seeded; cbn [price_queue items].
    + destruct (Z.to_nat (history_size self)) eqn:N; [lia|discriminate].
    + apply sum_repeat_zero.
  - intros Hst Hfin. apply mapM_ok_iff. intros i Hi. apply range_In in Hi.
    destruct (to_float_zero cp0 Hz) as (b & Hb & Hb0).
    rewrite (loop_price_float _ _ _ _ _ b Hb), Hst.
    rewrite int_of_zero; [reflexivity|]. apply mul_zero_finite; [assumption|].
    now apply Hfin.
Qed.

Lemma zero_price_gives_zero_history_witness :
  wf (seeded 4 [7; 8])
  /\ price_is_zero (PyFloat (-0)) = true
  /\ snd (generate_simulated_history (seeded 4 [7; 8]) falling (PyFloat (-0))) = Ok [0; 0; 0; 0]
  /\ is_ok (snd (generate_simulated_history (seeded 4 [7; 8]) steady (PyFloat (-0)))) = true.
Proof.
  assert (Hwf : wf (seeded 4 [7; 8])) by (split; [reflexivity|discriminate]).
  split; [exact Hwf|]. split; [reflexivity|]. split; [vm_compute; reflexivity|].
  apply (proj2 (zero_price_gives_zero_history (seeded 4 [7; 8]) steady (PyFloat (-0))
                  Hwf eq_refl)).
  - reflexivity.
  - intros i _. reflexivity.
Defined.

(** X8: a price that is NaN, infinite, or an [int] too large for a float
    never yields a history: for a size of at least 1 the call raises
    [OverflowError] or [ValueError] in its first iteration, whatever the
    trend and the draws, the history is left empty (the old one is gone), and
    analysis answers the sentinel pair. *)
Theorem unconvertible_price_empties_history (self : PriceAnalyzer) (rnd : random)
    (cp : pynum) :
  wf self ->
  1 <= history_size self ->
  price_finite cp = false ->
  exists e,
    generate_simulated_history self rnd cp = (fresh (history_size self), Raise e)
    /\ (e = OverflowError \/ e = ValueError)
    /\ forall cp', analyze_recommendation (fresh (history_size self)) cp'
                   = Ok ("UNKNOWN", "Not enough data")%string.
Proof.
  intros Hwf Hn Hcp. rewrite generate_closed_form by assumption.
  destruct (range_pos _ Hn) as [rest ->].
  destruct (loop_price_unconvertible (fresh (history_size self)) rnd (choice rnd) cp 0 Hcp)
    as (e & He & Hkind).
  exists e. simpl. rewrite He. repeat split; assumption.
Qed.

Lemma unconvertible_price_empties_history_witness :
  wf (seeded 15 hundreds)
  /\ price_finite (PyFloat nan) = false
  /\ price_finite (PyInt (10 ^ 400)) = false
  /\ exists e,
       generate_simulated_history (seeded 15 hundreds) falling (PyFloat nan)
       = (fresh (history_size (seeded 15 hundreds)), Raise e)
       /\ (e = OverflowError \/ e = ValueError)
       /\ forall cp', analyze_recommendation (fresh (history_size (seeded 15 hundreds))) cp'
                      = Ok ("UNKNOWN", "Not enough data")%string.
Proof.
  assert (Hwf : wf (seeded 15 hundreds)) by (split; [reflexivity|discriminate]).
  split; [exact Hwf|]. split; [reflexivity|]. split; [vm_compute; reflexivity|].
  apply (unconvertible_price_empties_history (seeded 15 hundreds) falling (PyFloat nan) Hwf).
  - discriminate.
  - reflexivity.
Defined.

(** ** A NaN price in the analysis *)

Lemma py_mul_100 (q : float) : py_mul (PyFloat q) (PyInt 100) = Ok (PyFloat (q * 100)).
Proof. reflexivity. Qed.

Lemma nan_quotient_times (b c k : float) : Prim2SF ((nan - b) / c * k) = S754_nan.
Proof.
  rewrite mul_spec, div_spec, sub_spec.
  change (Prim2SF nan) with S754_nan.
  unfold SF64mul, SF64div, SF64sub. reflexivity.
Qed.

Lemma diff_percent_nan (avg d : pynum) :
  diff_percent_of (PyFloat nan) avg = Ok d ->
  exists x, d = PyFloat x /\ Prim2SF x = S754_nan.
Proof.
  unfold diff_percent_of. destruct avg as [z|g]; simpl; unfold bind.
  - destruct (float_of_Z z) as [b|e] eqn:E; [|discriminate].
    simpl. unfold bind. rewrite E.
    destruct (b =? 0)%float; [discriminate|].
    rewrite py_mul_100. intros [= <-]. eexists. split; [reflexivity|].
    apply nan_quotient_times.
  - destruct (g =? 0)%float; [discriminate|].
    rewrite py_mul_100. intros [= <-]. eexists. split; [reflexivity|].
    apply nan_quotient_times.
Qed.

(** X9: a NaN price is not rejected: on a non-empty history, whenever an
    answer is given it is the default "wait" tier with the "price is average"
    explanation, because every comparison with NaN is false. *)
Theorem nan_price_is_called_average (self : PriceAnalyzer) (r : string * string) :
  get_history self <> [] ->
  analyze_recommendation self (PyFloat nan) = Ok r ->
  r = ("⏳ WAIT", "Price is average. You might find a better deal soon.")%string.
Proof.
  unfold get_history, analyze_recommendation.
  destruct (items (price_queue self)) as [|y rest]; [congruence|]. intros _.
  unfold bind.
  destruct (mean (y :: rest)) as [avg|e0]; [|discriminate].
  cbn [py_min py_max].
  destruct (diff_percent_of (PyFloat nan) avg) as [d|e0] eqn:D; [|discriminate].
  destruct (diff_percent_nan avg d D) as (x & -> & Hx).
  assert (Hmin : py_lt (PyFloat nan) (PyInt (fold_left Z.min rest y)) = false) by reflexivity.
  assert (Hlt : forall c, py_lt (PyFloat x) (PyInt c) = false)
    by (intros c; simpl; unfold float_lt_Z; now rewrite Hx).
  assert (Hgt : forall c, py_gt (PyFloat x) (PyInt c) = false)
    by (intros c; unfold py_gt; simpl; unfold Z_lt_float; now rewrite Hx).
  rewrite Hmin, !Hlt, Hgt. now intros [= <-].
Qed.

Lemma nan_price_is_called_average_witness :
  get_history (seeded 3 [100; 110; 120]) <> []
  /\ exists r, analyze_recommendation (seeded 3 [100; 110; 120]) (PyFloat nan) = Ok r
               /\ r = ("⏳ WAIT", "Price is average. You might find a better deal soon.")%string.
Proof.
  assert (N : get_history (seeded 3 [100; 110; 120]) <> []) by discriminate.
  assert (H : analyze_recommendation (seeded 3 [100; 110; 120]) (PyFloat nan)
              = Ok ("⏳ WAIT", "Price is average. You might find a better deal soon.")%string)
    by (vm_compute; reflexivity).
  split; [exact N|]. eexists. split; [exact H|].
  exact (nan_price_is_called_average (seeded 3 [100; 110; 120]) _ N H).
Defined.

(** ** From generation to analysis *)

(** X10: once a call of [generate_simulated_history] has returned on an
    analyzer of size at least 1, analysis never answers "UNKNOWN" again for
    that history: it answers one of the four tiers or raises. *)
Theorem populated_never_unknown (n : Z) (a : PriceAnalyzer)
    (calls : list (random * pynum)) (rnd : random) (cp : pynum) (h : list Z) :
  init n = Ok a ->
  1 <= n ->
  snd (generate_simulated_history (after_calls a calls) rnd cp) = Ok h ->
  forall cp' l e,
    analyze_recommendation (fst (generate_simulated_history (after_calls a calls) rnd cp)) cp'
    = Ok (l, e) ->
    l <> "UNKNOWN"%string /\ In l labels.
Proof.
  intros Ha Hn Hgen cp' l e Han.
  destruct (analyze_label_cases _ _ _ _ Han) as [Hin Hunk].
  split; [|assumption]. intros Hl. apply Hunk in Hl.
  destruct (after_calls_wf n a calls Ha) as [Hwf Hsize].
  rewrite generate_closed_form in Hgen, Hl by assumption.
  cbn [fst snd] in *. unfold get_history, seeded in Hl. cbn [price_queue items] in Hl.
  rewrite (mapM_take_ok _ _ _ Hgen) in Hl. subst h.
  apply mapM_length in Hgen. rewrite Hsize in Hgen.
  pose proof (range_length n ltac:(lia)) as Hlen. rewrite <- Hgen in Hlen. simpl in Hlen. lia.
Qed.

Lemma populated_never_unknown_witness :
  analyze_recommendation
    (fst (generate_simulated_history (after_calls (fresh 15) []) falling (PyInt 1000)))
    (PyInt 1000)
  = Ok ("🔥 BUY NOW", "Lowest price in recent history! Great deal.")%string
  /\ "🔥 BUY NOW"%string <> "UNKNOWN"%string.
Proof.
  assert (G : snd (generate_simulated_history (after_calls (fresh 15) []) falling (PyInt 1000))
              = Ok [1287; 1267; 1272; 1252; 1232; 1212; 1191; 1171; 1151; 1131; 1111; 1090;
                    1070; 1050; 1030]) by (vm_compute; reflexivity).
  assert (H : analyze_recommendation
                (fst (generate_simulated_history (after_calls (fresh 15) []) falling (PyInt 1000)))
                (PyInt 1000)
              = Ok ("🔥 BUY NOW", "Lowest price in recent history! Great deal.")%string)
    by (vm_compute; reflexivity).
  split; [exact H|].
  exact (proj1 (populated_never_unknown 15 (fresh 15) [] falling (PyInt 1000) _
                  eq_refl ltac:(discriminate) G (PyInt 1000) _ _ H)).
Defined.
